(** * SanMusic backend: a shallow embedding of [main.py] and [schemas.py]

    The service is a FastAPI application over a document store and a
    directory of uploaded files.  The handlers of [main.py] are embedded
    as functions over an explicit world (store, files, clock); documents
    are Python dicts and are modelled as finite maps from field names to
    Python values.

    A Python [str] is held as its UTF-8 text, one [ascii] a byte;
    literals that contain characters outside ASCII are written in UTF-8.
    Where Python counts or cuts a [str] it does so by characters, not by
    bytes: [Py.len] and [Py.slice_to]. *)

From Stdlib Require Import ZArith NArith Ascii String List Sorting.Sorted.
From stdpp Require Import base option list gmap strings pretty sorting.

Local Open Scope string_scope.

(** ** Python values held by documents *)

Module Py.

(** [datetime.datetime], naive: the fields the class stores.  CPython
    compares two naive datetimes field by field in this order. *)
Record datetime := mk_datetime {
  year : N; month : N; day : N;
  hour : N; minute : N; second : N; microsecond : N
}.

(** [datetime.min] is [datetime(1, 1, 1, 0, 0)]. *)
Definition datetime_min : datetime := mk_datetime 1 1 1 0 0 0 0.

Definition is_leap (y : N) : bool :=
  ((y mod 4 =? 0) && (negb (y mod 100 =? 0) || (y mod 400 =? 0)))%N.

Definition days_in_month (y m : N) : N :=
  (if m =? 2 then (if is_leap y then 29 else 28)
   else if (m =? 4) || (m =? 6) || (m =? 9) || (m =? 11) then 30
   else 31)%N.

(** The range checks of the [datetime] constructor. *)
Definition datetime_ok (d : datetime) : bool :=
  ((1 <=? year d) && (year d <=? 9999) &&
   (1 <=? month d) && (month d <=? 12) &&
   (1 <=? day d) && (day d <=? days_in_month (year d) (month d)) &&
   (hour d <? 24) && (minute d <? 60) && (second d <? 60) &&
   (microsecond d <? 1000000))%N.

Definition datetime_fields (d : datetime) : list N :=
  [year d; month d; day d; hour d; minute d; second d; microsecond d].

(** Lexicographic "less than" on field lists. *)
Fixpoint fields_ltb (a b : list N) : bool :=
  match a, b with
  | x :: a', y :: b' =>
      match N.compare x y with
      | Lt => true
      | Gt => false
      | Eq => fields_ltb a' b'
      end
  | [], _ :: _ => true
  | _, [] => false
  end.

Definition datetime_ltb (a b : datetime) : bool :=
  fields_ltb (datetime_fields a) (datetime_fields b).

(** Decimal digits of [n], left-padded with zeros to at least [w]
    characters (the [%0wd] of the datetime formatter). *)
Fixpoint zeros (k : nat) : string :=
  match k with
  | O => ""
  | S k' => String "0" (zeros k')
  end.

Definition zero_pad (w : nat) (n : N) : string :=
  let s := pretty n in zeros (w - String.length s) ++ s.

(** [str(d)] for a naive datetime: [isoformat(sep=' ')]. *)
Definition datetime_str (d : datetime) : string :=
  zero_pad 4 (year d) ++ "-" ++ zero_pad 2 (month d) ++ "-" ++
  zero_pad 2 (day d) ++ " " ++ zero_pad 2 (hour d) ++ ":" ++
  zero_pad 2 (minute d) ++ ":" ++ zero_pad 2 (second d) ++
  (if (microsecond d =? 0)%N then ""
   else "." ++ zero_pad 6 (microsecond d)).

(** A finite [float], named by its shortest round-trip decimal
    [mant * 10 ^ exp10] ([mant] has no trailing zero digit unless it is
    [0]).  Every finite float has exactly one such name, the one [repr]
    prints, and the order of floats is the order of their names.  NaN,
    the infinities and the negative zero are outside the model. *)
Record float := mk_float { mant : Z; exp10 : Z }.

Definition float_of_Z (z : Z) : float := mk_float z 0.

Definition float_ltb (a b : float) : bool :=
  let e := Z.min (exp10 a) (exp10 b) in
  (mant a * 10 ^ (exp10 a - e) <? mant b * 10 ^ (exp10 b - e))%Z.

(** [x >= 0]. *)
Definition float_nonneg (a : float) : bool := (0 <=? mant a)%Z.

(** [repr(x)]: fixed notation when the decimal point falls within
    [-4 < decpt <= 16], scientific notation otherwise. *)
Definition float_repr (a : float) : string :=
  let sign := if (mant a <? 0)%Z then "-" else "" in
  let ds := pretty (Z.abs_N (mant a)) in
  let n := Z.of_nat (String.length ds) in
  let decpt := (n + exp10 a)%Z in
  if (mant a =? 0)%Z then "0.0"
  else if ((-4 <? decpt) && (decpt <=? 16))%Z then
    if (decpt <=? 0)%Z then
      sign ++ "0." ++ zeros (Z.to_nat (- decpt)) ++ ds
    else if (n <=? decpt)%Z then
      sign ++ ds ++ zeros (Z.to_nat (decpt - n)) ++ ".0"
    else
      sign ++ substring 0 (Z.to_nat decpt) ds ++ "." ++
      substring (Z.to_nat decpt) (Z.to_nat (n - decpt)) ds
  else
    let e := (decpt - 1)%Z in
    sign ++ substring 0 1 ds ++
    (if (n =? 1)%Z then ""
     else "." ++ substring 1 (Z.to_nat (n - 1)) ds) ++
    "e" ++ (if (e <? 0)%Z then "-" else "+") ++
    zero_pad 2 (Z.abs_N e).

(** The values found in the documents of the store. *)
Inductive value :=
| VNone
| VStr (s : string)
| VFloat (x : float)
| VDatetime (d : datetime)
| VObjectId (hex : string).

(** Builtin [str]. The string form of a [bson.ObjectId] is its 24
    hexadecimal digits, by which the identifier is modelled. *)
Definition str (v : value) : string :=
  match v with
  | VNone => "None"
  | VStr s => s
  | VFloat x => float_repr x
  | VDatetime d => datetime_str d
  | VObjectId hex => hex
  end.

(** Truthiness of a value, as [if v] and [not v] test it. *)
Definition truthy (v : value) : bool :=
  match v with
  | VNone => false
  | VStr s => negb (String.eqb s "")
  | VFloat x => negb (mant x =? 0)%Z
  | _ => true
  end.

(** [a < b]: defined between two values of the same ordered type, a
    [TypeError] ([None]) otherwise; [None < None] raises as well. *)
Definition lt (a b : value) : option bool :=
  match a, b with
  | VStr s, VStr t => Some (String.ltb s t)
  | VFloat x, VFloat y => Some (float_ltb x y)
  | VDatetime d, VDatetime e => Some (datetime_ltb d e)
  | VObjectId g, VObjectId h => Some (String.ltb g h)
  | _, _ => None
  end.

(** Whether a byte of UTF-8 text continues a character ([10xxxxxx]).
    A character is one byte that is not of this kind, followed by the
    continuation bytes that belong to it. *)
Definition continuation (c : ascii) : bool :=
  match c with
  | Ascii _ _ _ _ _ _ false true => true
  | _ => false
  end.

(** [len(s)]: the number of characters, one for every byte that begins
    a character. *)
Fixpoint len (s : string) : nat :=
  match s with
  | EmptyString => O
  | String c s' => if continuation c then len s' else S (len s')
  end.

(** [s[:n]]: the first [n] characters, the whole of [s] when it has
    fewer.  The cut falls at the byte that begins character [n + 1]. *)
Fixpoint slice_to (n : nat) (s : string) : string :=
  match s with
  | EmptyString => EmptyString
  | String c s' =>
      if continuation c then String c (slice_to n s')
      else match n with
           | O => EmptyString
           | S n' => String c (slice_to n' s')
           end
  end.

End Py.

(** ** Dicts and [list.sort] *)

(** A document is a Python dict from field names to values. *)
Abbreviation doc := (gmap string Py.value).

Module Dict.

(** [d.get(k, dflt)] *)
Definition get (k : string) (dflt : Py.value) (d : doc) : Py.value :=
  default dflt (d !! k).

(** [d.pop(k, dflt)]: the value removed (or [dflt]) and the dict left. *)
Definition pop (k : string) (dflt : Py.value) (d : doc) : Py.value * doc :=
  (default dflt (d !! k), delete k d).

(** [d[k] = v] *)
Definition set (k : string) (v : Py.value) (d : doc) : doc := <[k := v]> d.

End Dict.

Module PyList.
Section Sort.
Context {A : Type}.

(** Insertion of a keyed item into a run that is already in order:
    the item goes in front of the first element it is less than, so
    behind every element it ties with.  A comparison that raises
    [TypeError] aborts the sort. *)
Fixpoint insert_keyed (p : Py.value * A) (run : list (Py.value * A))
  : option (list (Py.value * A)) :=
  match run with
  | [] => Some [p]
  | q :: run' =>
      b ← Py.lt p.1 q.1;
      if b : bool then Some (p :: q :: run')
      else (q ::.) <$> insert_keyed p run'
  end.

Fixpoint sort_keyed (run rest : list (Py.value * A))
  : option (list (Py.value * A)) :=
  match rest with
  | [] => Some run
  | p :: rest' => run' ← insert_keyed p run; sort_keyed run' rest'
  end.

(** [l.sort(key=key, reverse=reverse)].  The keys are computed once;
    the sort is stable and uses [<] only; with [reverse] CPython
    reverses the list, sorts it forwards and reverses the result.
    Whenever every pair of keys can be compared the outcome is the one
    stable order, whichever comparisons the algorithm makes; with two
    elements or more and a key that cannot be compared the sort
    raises. *)
Definition sort (key : A → Py.value) (reverse : bool) (l : list A)
  : option (list A) :=
  let keyed := (λ x, (key x, x)) <$> l in
  sorted ← sort_keyed [] (if reverse then List.rev keyed else keyed);
  Some (snd <$> (if reverse then List.rev sorted else sorted)).
End Sort.
End PyList.

(** ** Outcome of a request handler *)

(** A handler returns a body (status 200), raises [HTTPException], is
    never entered because the request fails validation (status 422), or
    lets an exception escape, which the framework answers with status
    500. *)
Inductive outcome (A : Type) :=
| Returned (body : A)
| HTTPException (status_code : nat) (detail : string)
| RequestValidationError
| Unhandled (exception : string).
Arguments Returned {A} body.
Arguments HTTPException {A} status_code detail.
Arguments RequestValidationError {A}.
Arguments Unhandled {A} exception.

Definition status {A} (o : outcome A) : nat :=
  match o with
  | Returned _ => 200
  | HTTPException c _ => c
  | RequestValidationError => 422
  | Unhandled _ => 500
  end.

(** ** [GET /songs] *)

(** One turn of the loop of [list_songs]:
    [d["id"] = str(d.pop("_id", ""))]. *)
Definition project_id (d : doc) : doc :=
  let '(oid, d') := Dict.pop "_id" (Py.VStr "") d in
  Dict.set "id" (Py.VStr (Py.str oid)) d'.

(** The key of the sort: [x.get("created_at", datetime.min)]. *)
Definition created_key (x : doc) : Py.value :=
  Dict.get "created_at" (Py.VDatetime Py.datetime_min) x.

(** The body of [list_songs] after the query: [docs] is what
    [get_documents("song", {})] returned, each document a dict of its
    own. *)
Definition list_songs_of (docs : list doc) : outcome (list doc) :=
  let out := foldl (λ out d, (out ++ [project_id d])%list) [] docs in
  match PyList.sort created_key true out with
  | Some out' => Returned out'
  | None => Unhandled "TypeError"
  end.

(** ** The world: clock, files and document store *)

Module Clock.

(** [datetime._days_before_year] and [_days_before_month]. *)
Definition days_before_year (y : Z) : Z :=
  let y' := (y - 1)%Z in (y' * 365 + y' / 4 - y' / 100 + y' / 400)%Z.

Definition days_before_month (y m : N) : Z :=
  (nth (N.to_nat m) [0; 0; 31; 59; 90; 120; 151; 181; 212; 243; 273; 304; 334] 0
   + (if (2 <? m)%N && Py.is_leap y then 1 else 0))%Z.

(** [datetime._ymd2ord]: the ordinal of a day, 0001-01-01 being day 1. *)
Definition ymd2ord (y m d : N) : Z :=
  (days_before_year (Z.of_N y) + days_before_month y m + Z.of_N d)%Z.

(** Microseconds from 1970-01-01 00:00:00 to the wall-clock reading [d]
    of the same zone. *)
Definition wall_micros (d : Py.datetime) : Z :=
  ((((ymd2ord (Py.year d) (Py.month d) (Py.day d) - ymd2ord 1970 1 1) * 86400
     + Z.of_N (Py.hour d) * 3600 + Z.of_N (Py.minute d) * 60
     + Z.of_N (Py.second d)) * 1000000)
   + Z.of_N (Py.microsecond d))%Z.

(** [d.timestamp()] for a naive [d].  Python reads a naive datetime as
    LOCAL time, so the host's offset from UTC ([utcoffset], in seconds
    east of Greenwich) is taken off.  The result, a float of seconds,
    is kept exact as a count of microseconds. *)
Definition timestamp (utcoffset : Z) (d : Py.datetime) : Z :=
  (wall_micros d - utcoffset * 1000000)%Z.

(** [int(x)] of such a float: truncation towards zero. *)
Definition int (micros : Z) : Z := Z.quot micros 1000000.

(** The Unix time, in whole seconds, at the moment the UTC wall clock
    reads [d]. *)
Definition unix_seconds (d : Py.datetime) : Z := wall_micros d / 1000000.

End Clock.

(** Content of a file. *)
Abbreviation bytes := (list ascii).

Record world := mk_world {
  (** the collections of the store, documents in insertion order *)
  store : gmap string (list doc);
  (** the number from which the store draws the next identifier *)
  next_oid : N;
  (** the files written so far, by path *)
  files : gmap string bytes;
  (** whether [open(path, "wb")] succeeds *)
  writable : string → bool;
  (** [os.getcwd()] at start-up *)
  cwd : string;
  (** successive readings of the UTC wall clock, and how many were taken *)
  utc_clock : nat → Py.datetime;
  clock_reads : nat;
  (** the host's local zone, in seconds east of UTC *)
  utcoffset : Z
}.

(** [datetime.utcnow()]: the UTC wall clock as a naive datetime. *)
Definition utcnow (w : world) : Py.datetime * world :=
  (utc_clock w (clock_reads w),
   mk_world (store w) (next_oid w) (files w) (writable w) (cwd w)
            (utc_clock w) (S (clock_reads w)) (utcoffset w)).

(** [with open(path, "wb") as f: f.write(data)]; [None] when [open]
    raises [OSError]. *)
Definition write_file (path : string) (data : bytes) (w : world) : option world :=
  if writable w path then
    Some (mk_world (store w) (next_oid w) (<[path := data]> (files w))
                   (writable w) (cwd w) (utc_clock w) (clock_reads w)
                   (utcoffset w))
  else None.

(** [os.path.join(a, b)] of [posixpath]. *)
Definition path_join (a b : string) : string :=
  match b with
  | String "/" _ => b
  | _ =>
      if String.eqb a "" || String.eqb (substring (String.length a - 1) 1 a) "/"
      then a ++ b else a ++ "/" ++ b
  end.

Definition UPLOAD_DIR (w : world) : string := path_join (cwd w) "uploads".
Definition AUDIO_DIR (w : world) : string := path_join (UPLOAD_DIR w) "audio".
Definition COVER_DIR (w : world) : string := path_join (UPLOAD_DIR w) "covers".

(** [s.replace(' ', '_')] *)
Fixpoint replace_spaces (s : string) : string :=
  match s with
  | EmptyString => EmptyString
  | String c s' => String (if Ascii.eqb c " " then "_"%char else c) (replace_spaces s')
  end.

(** ** Schemas *)

(** What [create_document] needs of a pydantic model: its fields as a
    dict. *)
Class BaseModel (A : Type) := model_dump : A → doc.

Definition opt_str (o : option string) : Py.value := from_option Py.VStr Py.VNone o.
Definition opt_float (o : option Py.float) : Py.value := from_option Py.VFloat Py.VNone o.

Definition song_fields (title artist : string) (album coverUrl audioUrl : option string)
    (duration : option Py.float) : doc :=
  {[ "title" := Py.VStr title; "artist" := Py.VStr artist;
     "album" := opt_str album; "coverUrl" := opt_str coverUrl;
     "audioUrl" := opt_str audioUrl; "duration" := opt_float duration ]}.

(** [main.SongCreate], the request model of [POST /songs]. *)
Module SongCreate.
Record t := mk {
  title : string;
  artist : string;
  album : option string;
  coverUrl : option string;
  audioUrl : option string;
  duration : option Py.float
}.

(** A JSON body whose fields, where present and not [null], have the
    declared types. *)
Record body := mk_body {
  b_title : option string;
  b_artist : option string;
  b_album : option string;
  b_coverUrl : option string;
  b_audioUrl : option string;
  b_duration : option Py.float
}.

(** Validation of the body: [title] and [artist] are required, the
    other fields default to [None]; no field carries a constraint. *)
Definition validate (b : body) : option t :=
  t ← b_title b; a ← b_artist b;
  Some (mk t a (b_album b) (b_coverUrl b) (b_audioUrl b) (b_duration b)).
End SongCreate.

#[export] Instance SongCreate_model : BaseModel SongCreate.t := λ s,
  song_fields (SongCreate.title s) (SongCreate.artist s) (SongCreate.album s)
    (SongCreate.coverUrl s) (SongCreate.audioUrl s) (SongCreate.duration s).

(** [schemas.Song], the schema of the collection ["song"]. *)
Module Song.
Record t := mk {
  title : string;
  artist : string;
  album : option string;
  coverUrl : option string;
  audioUrl : option string;
  duration : option Py.float
}.

(** [Song(title=..., ..., duration=...)]: [duration] is declared with
    [ge=0]; [None] is the [ValidationError]. *)
Definition new (title artist : string) (album coverUrl audioUrl : option string)
    (duration : option Py.float) : option t :=
  if from_option Py.float_nonneg true duration
  then Some (mk title artist album coverUrl audioUrl duration)
  else None.
End Song.

#[export] Instance Song_model : BaseModel Song.t := λ s,
  song_fields (Song.title s) (Song.artist s) (Song.album s)
    (Song.coverUrl s) (Song.audioUrl s) (Song.duration s).

(** ** The document store ([database.py]) *)

Definition hex_digit (n : N) : ascii :=
  nth (N.to_nat n)
    ["0"; "1"; "2"; "3"; "4"; "5"; "6"; "7"; "8"; "9"; "a"; "b"; "c"; "d"; "e"; "f"]%char
    "0"%char.

Fixpoint hex_digits (k : nat) (n : N) (acc : string) : string :=
  match k with
  | O => acc
  | S k' => hex_digits k' (n / 16)%N (String (hex_digit (n mod 16)%N) acc)
  end.

(** The identifier the store makes of a number: 24 hexadecimal digits. *)
Definition ObjectId (n : N) : Py.value := Py.VObjectId (hex_digits 24 n "").

(** Modelled from the spec: [database.create_document] is not among the
    sources.  "create(collectionName, document) -> id": the store
    persists a new document, assigns its identifier and its [created_at]
    and returns the identifier as a string. *)
Definition create_document `{BaseModel A} (collection_name : string) (data : A)
    (w : world) : string * world :=
  let oid := ObjectId (next_oid w) in
  let '(now, w) := utcnow w in
  let d := <["created_at" := Py.VDatetime now]> (<["_id" := oid]> (model_dump data)) in
  let docs := default [] (store w !! collection_name) in
  (Py.str oid,
   mk_world (<[collection_name := (docs ++ [d])%list]> (store w)) (next_oid w + 1)%N
            (files w) (writable w) (cwd w) (utc_clock w) (clock_reads w)
            (utcoffset w)).

(** Modelled from the spec: [database.get_documents] is not among the
    sources.  "queryAll(collectionName) -> sequence of documents", here
    with the empty filter. *)
Definition get_documents (collection_name : string) (w : world) : list doc :=
  default [] (store w !! collection_name).

(** ** [GET /songs], [POST /songs], [POST /songs/upload] *)

Definition list_songs (w : world) : outcome (list doc) :=
  list_songs_of (get_documents "song" w).

Definition create_song (song : SongCreate.t) (w : world) : outcome doc * world :=
  if negb (Py.truthy (opt_str (SongCreate.audioUrl song))) then
    (HTTPException 400 "audioUrl is required when not uploading a file.", w)
  else
    let '(new_id, w) := create_document "song" song w in
    (Returned {[ "id" := Py.VStr new_id ]}, w).

(** The route [POST /songs]: the body is validated into a [SongCreate]
    before the handler runs. *)
Definition post_songs (b : SongCreate.body) (w : world) : outcome doc * world :=
  match SongCreate.validate b with
  | Some song => create_song song w
  | None => (RequestValidationError, w)
  end.

(** An uploaded file of the multipart form. *)
Record UploadFile := mk_upload { filename : string; content : bytes }.

(** [f"{int(datetime.utcnow().timestamp())}_{name.replace(' ', '_')}"],
    with [now] the reading [datetime.utcnow()] returned. *)
Definition safe_name (utcoffset : Z) (now : Py.datetime) (name : string) : string :=
  pretty (Clock.int (Clock.timestamp utcoffset now)) ++ "_" ++ replace_spaces name.

(** The cover branch of [upload_song]: [cover_url] ([None] on the left
    when the write raises) and the world after it. *)
Definition save_cover (cover : option UploadFile) (w : world)
    : option (option string) * world :=
  match cover with
  | Some c =>
      let '(now, w) := utcnow w in
      let safe_cover_name := safe_name (utcoffset w) now (filename c) in
      let cover_path := path_join (COVER_DIR w) safe_cover_name in
      match write_file cover_path (content c) w with
      | Some w => (Some (Some ("/media/covers/" ++ safe_cover_name)), w)
      | None => (None, w)
      end
  | None => (Some None, w)
  end.

(** The handler of [POST /songs/upload], entered with the form fields
    validated.  [audio_ext = os.path.splitext(audio.filename)[1]] is
    computed by the source and never used; it is left out.  A write that
    raises leaves the handler as [OSError]. *)
Definition upload_song (title artist : string) (album : option string)
    (audio : UploadFile) (cover : option UploadFile) (w : world)
    : outcome doc * world :=
  let '(now, w) := utcnow w in
  let safe_audio_name := safe_name (utcoffset w) now (filename audio) in
  let audio_path := path_join (AUDIO_DIR w) safe_audio_name in
  match write_file audio_path (content audio) w with
  | None => (Unhandled "OSError", w)
  | Some w =>
      match save_cover cover w with
      | (None, w) => (Unhandled "OSError", w)
      | (Some cover_url, w) =>
          let audio_url := "/media/audio/" ++ safe_audio_name in
          match Song.new title artist album cover_url (Some audio_url) None with
          | None => (Unhandled "ValidationError", w)
          | Some song_doc =>
              let '(new_id, w) := create_document "song" song_doc w in
              (Returned {[ "id" := Py.VStr new_id;
                           "audioUrl" := Py.VStr audio_url;
                           "coverUrl" := opt_str cover_url ]}, w)
          end
      end
  end.

(** The multipart form of [POST /songs/upload] as it arrives: each text
    field and each file is there or not. *)
Record upload_form := mk_form {
  f_title : option string;
  f_artist : option string;
  f_album : option string;
  f_audio : option UploadFile;
  f_cover : option UploadFile
}.

(** The value FastAPI reads from a field declared with [Form]: a field
    sent empty counts as a field that was not sent. *)
Definition form_text (v : option string) : option string :=
  match v with
  | Some EmptyString => None
  | _ => v
  end.

(** The route [POST /songs/upload]: [title], [artist] and [audio] are
    declared required ([Form(...)], [File(...)]) and the handler is not
    entered without them; [album] and [cover] default to [None]. *)
Definition post_songs_upload (f : upload_form) (w : world) : outcome doc * world :=
  match form_text (f_title f), form_text (f_artist f), f_audio f with
  | Some title, Some artist, Some audio =>
      upload_song title artist (form_text (f_album f)) audio (f_cover f) w
  | _, _, _ => (RequestValidationError, w)
  end.

(** ** [GET /test] *)

Module Diag.

(** A raised [Exception]; [str(e)] is its message. *)
Record exn := Exception { message : string }.

(** An attribute of an object: missing, present, or a property whose
    getter raises. *)
Inductive attr (A : Type) :=
| NoAttr
| Attr (a : A)
| AttrRaises (e : exn).
Arguments NoAttr {A}.
Arguments Attr {A} a.
Arguments AttrRaises {A} e.

(** The handle [database.db], as far as [test_database] looks at it. *)
Record Database := mk_db {
  name : attr string;
  list_collection_names : exn + list string
}.

(** The dict [response]. *)
Record response := mk_response {
  backend : string;
  database : string;
  database_url : option string;
  database_name : option string;
  connection_status : string;
  collections : list string
}.

(** Statements that assign to [response] and may raise: the
    assignments made before an exception is raised stay. *)
Definition M (A : Type) : Type := response → (exn + A) * response.

Definition ret {A} (a : A) : M A := λ r, (inr a, r).
Definition raise {A} (e : exn) : M A := λ r, (inl e, r).
Definition bind {A B} (m : M A) (k : A → M B) : M B := λ r,
  match m r with
  | (inr a, r') => k a r'
  | (inl e, r') => (inl e, r')
  end.
(** [try: body except Exception as e: handler(e)] *)
Definition try_except {A} (body : M A) (handler : exn → M A) : M A := λ r,
  match body r with
  | (inl e, r') => handler e r'
  | ok => ok
  end.
Definition assign (f : response → response) : M unit := λ r, (inr tt, f r).
Definition current : M response := λ r, (inr r, r).

#[export] Instance M_ret : MRet M := @ret.
#[export] Instance M_bind : MBind M := λ A B k m, bind m k.

Definition set_database (v : string) : M unit :=
  assign (λ r, mk_response (backend r) v (database_url r) (database_name r)
                           (connection_status r) (collections r)).
Definition set_database_url (v : string) : M unit :=
  assign (λ r, mk_response (backend r) (database r) (Some v) (database_name r)
                           (connection_status r) (collections r)).
Definition set_database_name (v : string) : M unit :=
  assign (λ r, mk_response (backend r) (database r) (database_url r) (Some v)
                           (connection_status r) (collections r)).
Definition set_connection_status (v : string) : M unit :=
  assign (λ r, mk_response (backend r) (database r) (database_url r)
                           (database_name r) v (collections r)).
Definition set_collections (v : list string) : M unit :=
  assign (λ r, mk_response (backend r) (database r) (database_url r)
                           (database_name r) (connection_status r) v).

(** [hasattr(db, 'name')]: false on a missing attribute, any other
    exception of the getter passes through. *)
Definition hasattr_name (db : Database) : M bool :=
  match name db with
  | NoAttr => ret false
  | Attr _ => ret true
  | AttrRaises e => raise e
  end.

(** [db.name] *)
Definition get_name (db : Database) : M string :=
  match name db with
  | NoAttr => raise (Exception "'Database' object has no attribute 'name'")
  | Attr a => ret a
  | AttrRaises e => raise e
  end.

(** [db.list_collection_names()] *)
Definition call_list_collection_names (db : Database) : M (list string) :=
  match list_collection_names db with
  | inl e => raise e
  | inr l => ret l
  end.

(** [str(e)[:50]]: the first 50 characters of the message. *)
Definition str50 (e : exn) : string := Py.slice_to 50 (message e).

(** ["✅ Set" if os.getenv(k) else "❌ Not Set"] *)
Definition set_or_not (environ : gmap string string) (k : string) : string :=
  if Py.truthy (opt_str (environ !! k)) then "✅ Set" else "❌ Not Set".

Definition initial : response :=
  mk_response "✅ Running" "❌ Not Available" None None "Not Connected" [].

Definition test_database (db : option Database) (environ : gmap string string)
    : M response :=
  try_except
    (match db with
     | Some db =>
         set_database "✅ Available";;
         set_database_url "✅ Set";;
         has ← hasattr_name db;
         nm ← (if has : bool then get_name db else ret "✅ Connected");
         set_database_name nm;;
         set_connection_status "Connected";;
         try_except
           (collections ← call_list_collection_names db;
            set_collections (take 10 collections);;
            set_database "✅ Connected & Working")
           (λ e, set_database ("⚠️  Connected but Error: " ++ str50 e))
     | None => set_database "⚠️  Available but not initialized"
     end)
    (λ e, set_database ("❌ Error: " ++ str50 e));;
  set_database_url (set_or_not environ "DATABASE_URL");;
  set_database_name (set_or_not environ "DATABASE_NAME");;
  current.

(** The route [GET /test]: the handler starts from the initial dict; an
    exception that leaves it is answered with status 500. *)
Definition get_test (db : option Database) (environ : gmap string string)
    : outcome response :=
  match test_database db environ initial with
  | (inr r, _) => Returned r
  | (inl e, _) => Unhandled (message e)
  end.

End Diag.

(** * Vocabulary of the statements *)

(** Whether [created_at], where the document has it, is a datetime (the
    store's creation timestamp). *)
Definition timestamped (d : doc) : bool :=
  match d !! "created_at" with
  | None => true
  | Some (Py.VDatetime t) => Py.datetime_ok t
  | Some _ => false
  end.

(** [a] does not come strictly before [b] in time: how two neighbours of
    a newest-first listing stand. *)
Definition not_older (a b : doc) : Prop :=
  Py.lt (created_key a) (created_key b) = Some false.

(** A keyed item whose key is a datetime. *)
Definition dated {A} (p : Py.value * A) : Prop := ∃ t, p.1 = Py.VDatetime t.

(** [p] may stand before [q] in an ascending run: [q] is not less. *)
Definition ascending {A} (p q : Py.value * A) : Prop :=
  Py.lt q.1 p.1 = Some false.

(** The document [create_document] stores for [data] in the world [w]. *)
Definition stored `{BaseModel A} (data : A) (w : world) : doc :=
  <["created_at" := Py.VDatetime (utc_clock w (clock_reads w))]>
    (<["_id" := ObjectId (next_oid w)]> (model_dump data)).

(** The names [upload_song] derives in the world [w]: the audio name at
    the first reading of the clock, the cover name at the second. *)
Definition audio_name (audio : UploadFile) (w : world) : string :=
  safe_name (utcoffset w) (utc_clock w (clock_reads w)) (filename audio).
Definition cover_name (c : UploadFile) (w : world) : string :=
  safe_name (utcoffset w) (utc_clock w (S (clock_reads w))) (filename c).
Definition audio_path (audio : UploadFile) (w : world) : string :=
  path_join (AUDIO_DIR w) (audio_name audio w).
Definition cover_path (c : UploadFile) (w : world) : string :=
  path_join (COVER_DIR w) (cover_name c w).

(** Whether both writes of an upload succeed in [w]. *)
Definition can_store (audio : UploadFile) (cover : option UploadFile) (w : world) : bool :=
  writable w (audio_path audio w) &&
  from_option (λ c, writable w (cover_path c w)) true cover.

(** The body [upload_song] returns once both files are written. *)
Definition upload_body (new_id : string) (audio : UploadFile)
    (cover : option UploadFile) (w : world) : doc :=
  {[ "id" := Py.VStr new_id;
     "audioUrl" := Py.VStr ("/media/audio/" ++ audio_name audio w);
     "coverUrl" := opt_str ((λ c, "/media/covers/" ++ cover_name c w) <$> cover) ]}.

(** The dict [test_database] returns, case by case. *)
Definition diag_response (environ : gmap string string) (database : string)
    (connection_status : string) (collections : list string) : Diag.response :=
  Diag.mk_response "✅ Running" database
    (Some (Diag.set_or_not environ "DATABASE_URL"))
    (Some (Diag.set_or_not environ "DATABASE_NAME"))
    connection_status collections.

#[export] Instance datetime_eq_dec : EqDecision Py.datetime.
Proof. solve_decision. Defined.
#[export] Instance float_eq_dec : EqDecision Py.float.
Proof. solve_decision. Defined.
#[export] Instance value_eq_dec : EqDecision Py.value.
Proof. solve_decision. Defined.

(** A keyed item with the key [k]. *)
Definition keyed_at {A} (k : Py.value) (p : Py.value * A) : Prop := p.1 = k.
#[export] Instance keyed_at_dec {A} (k : Py.value) (p : Py.value * A) :
  Decision (keyed_at k p).
Proof. unfold keyed_at. apply _. Defined.

(** A keyed item whose key is not a datetime. *)
Definition undated {A} (p : Py.value * A) : Prop := ∀ t, p.1 ≠ Py.VDatetime t.

(** Whether [created_at] is there and is not a datetime. *)
Definition misdated (d : doc) : bool :=
  match d !! "created_at" with
  | None | Some (Py.VDatetime _) => false
  | Some _ => true
  end.

(** The reading of the clock at which [create_document] stamps the
    document of an upload: after one reading for the audio name and one
    more for a cover. *)
Definition upload_stamp (cover : option UploadFile) (w : world) : Py.datetime :=
  utc_clock w (match cover with
               | Some _ => S (S (clock_reads w))
               | None => S (clock_reads w)
               end).

(** The document an upload stores. *)
Definition upload_doc (title artist : string) (album : option string)
    (audio : UploadFile) (cover : option UploadFile) (w : world) : doc :=
  <["created_at" := Py.VDatetime (upload_stamp cover w)]>
    (<["_id" := ObjectId (next_oid w)]>
       (song_fields title artist album
          ((λ c, "/media/covers/" ++ cover_name c w) <$> cover)
          (Some ("/media/audio/" ++ audio_name audio w)) None)).

(** The files after an upload: the audio is written first, the cover
    after it. *)
Definition upload_files (audio : UploadFile) (cover : option UploadFile)
    (w : world) : gmap string bytes :=
  match cover with
  | Some c =>
      <[cover_path c w := content c]>
        (<[audio_path audio w := content audio]> (files w))
  | None => <[audio_path audio w := content audio]> (files w)
  end.

(** Every character of [s] satisfies [P]. *)
Fixpoint all_chars (P : ascii → Prop) (s : string) : Prop :=
  match s with
  | EmptyString => True
  | String c s' => P c ∧ all_chars P s'
  end.

(** Neither of the two characters that delimit a derived name. *)
Definition plain (c : ascii) : Prop := c ≠ "_"%char ∧ c ≠ "/"%char.

Definition not_space (c : ascii) : Prop := c ≠ " "%char.

(** A directory path with its separator, as [os.path.join] puts it in
    front of a relative name. *)
Definition dir_sep (a : string) : string :=
  if String.eqb a "" || String.eqb (substring (String.length a - 1) 1 a) "/"
  then a else a ++ "/".

(** Every reading of the clock is a datetime in range. *)
Definition clock_ok (w : world) : Prop :=
  ∀ n, Py.datetime_ok (utc_clock w n) = true.

(** The documents of ["song"] can be listed: their [created_at] is a
    timestamp or missing. *)
Definition listable (w : world) : Prop :=
  Forall (λ d, timestamped d = true) (get_documents "song" w).

(** The requests that write to the store. *)
Inductive request :=
| PostSong (b : SongCreate.body)
| UploadSong (title artist : string) (album : option string)
             (audio : UploadFile) (cover : option UploadFile).

(** The world after a request has been answered. *)
Definition after (w : world) (r : request) : world :=
  match r with
  | PostSong b => (post_songs b w).2
  | UploadSong title artist album audio cover =>
      (upload_song title artist album audio cover w).2
  end.

(** The instant at which a record stands in the listing, in the spec's
    words: its [created_at], counted in microseconds from 1970, and the
    earliest possible timestamp when the record has none. *)
Definition created_instant (r : doc) : option Z :=
  match r !! "created_at" with
  | None => Some (Clock.wall_micros Py.datetime_min)
  | Some (Py.VDatetime t) => Some (Clock.wall_micros t)
  | Some _ => None
  end.

(** Sorted by [created_at] descending: of any two records of the list,
    the one listed first was not created before the other. *)
Definition newest_first (out : list doc) : Prop :=
  ∀ i j a b, (i < j)%nat → out !! i = Some a → out !! j = Some b →
    ∃ ta tb, created_instant a = Some ta ∧ created_instant b = Some tb ∧
             (tb ≤ ta)%Z.

(** A text that does not begin in the middle of a character. *)
Definition char_boundary (s : string) : Prop :=
  match s with
  | EmptyString => True
  | String c _ => Py.continuation c = false
  end.

(** [t] is [s] cut to its first [n] characters: [t] begins [s] and ends
    between two characters of it, with [n] characters, or with all of
    them when [s] has no more. *)
Definition first_chars (n : nat) (s t : string) : Prop :=
  (∃ rest, s = t ++ rest ∧ char_boundary rest) ∧
  Py.len t = Nat.min n (Py.len s) ∧
  ((Py.len s ≤ n)%nat → t = s).

(** * Sample data *)

(** The UTC wall clock from 2023-11-14 22:13:20 on, one second a
    reading. *)
Definition sample_clock (n : nat) : Py.datetime :=
  Py.mk_datetime 2023 11 14 22 13 (20 + N.of_nat n) 0.

(** An empty store on a host whose local zone is UTC. *)
Definition sample_world : world :=
  mk_world ∅ 1 ∅ (λ _, true) "/app" sample_clock 0 0.

Definition song_x : doc :=
  {[ "_id" := ObjectId 1; "title" := Py.VStr "X";
     "created_at" := Py.VDatetime (sample_clock 0) ]}.
Definition song_y : doc :=
  {[ "_id" := ObjectId 2; "title" := Py.VStr "Y";
     "created_at" := Py.VDatetime (sample_clock 1) ]}.
(** A document with neither [_id] nor [created_at]. *)
Definition song_bare : doc := {[ "title" := Py.VStr "Z" ]}.
(** A document that has a field [id] of its own. *)
Definition song_legacy : doc :=
  {[ "_id" := ObjectId 7; "id" := Py.VStr "legacy"; "title" := Py.VStr "L" ]}.

Definition with_songs (docs : list doc) : world :=
  mk_world {[ "song" := docs ]} 8 ∅ (λ _, true) "/app" sample_clock 2 0.

Definition song_ab : SongCreate.t :=
  SongCreate.mk "A" "B" None None None None.
Definition song_ab_url : SongCreate.t :=
  SongCreate.mk "A" "B" None None (Some "http://x/y.mp3") None.

Definition upload_ab : UploadFile := mk_upload "a b.mp3" ["I"; "D"; "3"]%char.
Definition upload_cover : UploadFile := mk_upload "my cover.png" ["P"; "N"; "G"]%char.

Definition body_empty_names : SongCreate.body :=
  SongCreate.mk_body (Some "") (Some "") None None (Some "http://x/y.mp3") None.

Definition body_negative_duration : SongCreate.body :=
  SongCreate.mk_body (Some "A") (Some "B") None None (Some "http://x/y.mp3")
                     (Some (Py.float_of_Z (-1))).

(** An upload form with every required field, and the same form with
    the [title] sent empty. *)
Definition form_ab : upload_form :=
  mk_form (Some "A") (Some "B") None (Some upload_ab) None.
Definition form_empty_title : upload_form :=
  mk_form (Some "") (Some "B") None (Some upload_ab) None.

(** A host one hour east of UTC, otherwise as [sample_world]: its UTC
    clock reads 2023-11-14 22:13:20, Unix time 1700000000. *)
Definition east_world : world :=
  mk_world ∅ 1 ∅ (λ _, true) "/app" sample_clock 0 3600.

(** A document stamped like [song_x]. *)
Definition song_x_twin : doc :=
  {[ "_id" := ObjectId 3; "title" := Py.VStr "X2";
     "created_at" := Py.VDatetime (sample_clock 0) ]}.

(** A document whose [created_at] is text. *)
Definition song_text_date : doc :=
  {[ "_id" := ObjectId 4; "title" := Py.VStr "T";
     "created_at" := Py.VStr "2023-11-14" ]}.

(** A clock whose readings all fall within one second, a microsecond
    apart. *)
Definition steady_clock (n : nat) : Py.datetime :=
  Py.mk_datetime 2023 11 14 22 13 20 (N.of_nat n mod 1000000).

(** An empty store on a host in UTC with that clock. *)
Definition steady_world : world :=
  mk_world ∅ 1 ∅ (λ _, true) "/app" steady_clock 0 0.

(** As [sample_world], with a cover directory that cannot be written. *)
Definition no_covers_world : world :=
  mk_world ∅ 1 ∅ (λ p, negb (String.prefix "/app/uploads/covers/" p))
           "/app" sample_clock 0 0.

Definition upload_ab_underscore : UploadFile :=
  mk_upload "a_b.mp3" ["O"; "g"; "g"]%char.

(** * Properties *)

(** ** [str] of floats and datetimes *)

Example float_repr_fixed :
  Py.float_repr (Py.mk_float 1 0) = "1.0" ∧
  Py.float_repr (Py.mk_float (-18025) (-2)) = "-180.25" ∧
  Py.float_repr (Py.mk_float 1 (-4)) = "0.0001" ∧
  Py.float_repr (Py.mk_float 1 15) = "1000000000000000.0".
Proof. split_and!; reflexivity. Qed.

Example float_repr_scientific :
  Py.float_repr (Py.mk_float 1 16) = "1e+16" ∧
  Py.float_repr (Py.mk_float 1 (-5)) = "1e-05" ∧
  Py.float_repr (Py.mk_float 12345678901234568 1) = "1.2345678901234568e+17".
Proof. split_and!; reflexivity. Qed.

Example datetime_str_samples :
  Py.datetime_str (Py.mk_datetime 2024 3 9 7 5 1 0) = "2024-03-09 07:05:01" ∧
  Py.datetime_str (Py.mk_datetime 1 1 1 0 0 0 42) = "0001-01-01 00:00:00.000042" ∧
  Py.datetime_str Py.datetime_min = "0001-01-01 00:00:00".
Proof. split_and!; reflexivity. Qed.

(** ** The order of datetimes *)

Lemma fields_ltb_asym a b :
  Py.fields_ltb a b = true → Py.fields_ltb b a = false.
Proof.
  revert b. induction a as [|x a IH]; intros [|y b]; simpl; try done.
  rewrite (N.compare_antisym x y).
  destruct (N.compare x y); simpl; auto; discriminate.
Qed.

Lemma fields_ltb_trans a b c :
  Py.fields_ltb a b = true → Py.fields_ltb b c = true → Py.fields_ltb a c = true.
Proof.
  revert b c. induction a as [|x a IH]; intros [|y b] [|z c]; simpl; try done.
  destruct (N.compare_spec x y), (N.compare_spec y z), (N.compare_spec x z);
    try done; try lia; eauto.
Qed.

Lemma datetime_min_least t :
  Py.datetime_ok t = true → Py.datetime_ltb t Py.datetime_min = false.
Proof.
  destruct t as [y mo d h mi s us].
  unfold Py.datetime_ok, Py.datetime_ltb; simpl. intros Hok.
  repeat (apply andb_prop in Hok as [Hok ?]).
  repeat match goal with
         | H : (_ <=? _)%N = true |- _ => apply N.leb_le in H
         | H : (_ <? _)%N = true |- _ => apply N.ltb_lt in H
         end.
  repeat match goal with
         | |- context [N.compare ?a ?b] => destruct (N.compare_spec a b); try done; try lia
         end.
Qed.

(** The order of the fields is the order in time: day ordinals grow
    with the year, the month and the day. *)
Section Chronology.
Local Open Scope Z_scope.

Lemma days_before_year_succ (y : Z) :
  1 ≤ y →
  Clock.days_before_year (y + 1)
  = Clock.days_before_year y + 365 + (if Py.is_leap (Z.to_N y) then 1 else 0).
Proof.
  intros Hy. unfold Clock.days_before_year, Py.is_leap.
  replace (y + 1 - 1) with y by lia.
  assert (Z.of_N (Z.to_N y) = y) as Hn by lia.
  assert (∀ k, (0 < k)%N → ((Z.to_N y mod k =? 0)%N = (y mod Z.of_N k =? 0)%Z)) as Hmod.
  { intros k Hk. rewrite <-Hn at 2. rewrite <-N2Z.inj_mod.
    destruct (N.eqb_spec (Z.to_N y mod k) 0), (Z.eqb_spec (Z.of_N (Z.to_N y mod k)) 0); lia. }
  rewrite !Hmod by lia. simpl Z.of_N.
  destruct (Z.eqb_spec (y mod 4) 0), (Z.eqb_spec (y mod 100) 0), (Z.eqb_spec (y mod 400) 0);
    simpl; Z.div_mod_to_equations; lia.
Qed.

Lemma days_before_year_mono (y y' : Z) :
  1 ≤ y → y ≤ y' → Clock.days_before_year y ≤ Clock.days_before_year y'.
Proof.
  intros Hy Hle. unfold Clock.days_before_year.
  Z.div_mod_to_equations. lia.
Qed.

Lemma month_cases (m : N) : (1 ≤ m)%N → (m ≤ 12)%N →
  m = 1%N ∨ m = 2%N ∨ m = 3%N ∨ m = 4%N ∨ m = 5%N ∨ m = 6%N ∨
  m = 7%N ∨ m = 8%N ∨ m = 9%N ∨ m = 10%N ∨ m = 11%N ∨ m = 12%N.
Proof. lia. Qed.

(** The days of a year before the end of month [m]. *)
Lemma days_before_month_next (y m m' : N) :
  (1 ≤ m)%N → (m < m')%N → (m' ≤ 12)%N →
  Clock.days_before_month y m + Z.of_N (Py.days_in_month y m)
  ≤ Clock.days_before_month y m'.
Proof.
  intros H1 Hlt H12.
  unfold Clock.days_before_month, Py.days_in_month.
  destruct (Py.is_leap y);
    destruct (month_cases m) as [->|[->|[->|[->|[->|[->|[->|[->|[->|[->|[->| ->]]]]]]]]]]];
    try lia;
    destruct (month_cases m') as [->|[->|[->|[->|[->|[->|[->|[->|[->|[->|[->| ->]]]]]]]]]]];
    try lia; vm_compute; congruence.
Qed.

Lemma days_before_month_year (y m : N) :
  (1 ≤ m)%N → (m ≤ 12)%N →
  0 ≤ Clock.days_before_month y m ∧
  Clock.days_before_month y m + Z.of_N (Py.days_in_month y m)
  ≤ 365 + (if Py.is_leap y then 1 else 0).
Proof.
  intros H1 H12.
  unfold Clock.days_before_month, Py.days_in_month.
  destruct (Py.is_leap y);
    destruct (month_cases m) as [->|[->|[->|[->|[->|[->|[->|[->|[->|[->|[->| ->]]]]]]]]]]];
    try lia; vm_compute; split; congruence.
Qed.

Lemma datetime_ok_bounds (d : Py.datetime) :
  Py.datetime_ok d = true →
  (1 ≤ Py.year d)%N ∧ (1 ≤ Py.month d ≤ 12)%N ∧
  (1 ≤ Py.day d ≤ Py.days_in_month (Py.year d) (Py.month d))%N ∧
  (Py.hour d < 24)%N ∧ (Py.minute d < 60)%N ∧ (Py.second d < 60)%N ∧
  (Py.microsecond d < 1000000)%N.
Proof.
  unfold Py.datetime_ok. rewrite !andb_true_iff, !N.leb_le, !N.ltb_lt. tauto.
Qed.

(** The order of the fields is the order in time. *)
Lemma datetime_ltb_chronological (a b : Py.datetime) :
  Py.datetime_ok a = true → Py.datetime_ok b = true →
  Py.datetime_ltb a b = true → Clock.wall_micros a < Clock.wall_micros b.
Proof.
  intros (Hya & Hma & Hda & Hha & Hmia & Hsa & Hua)%datetime_ok_bounds
         (Hyb & Hmb & Hdb & Hhb & Hmib & Hsb & Hub)%datetime_ok_bounds.
  unfold Py.datetime_ltb, Py.datetime_fields, Py.fields_ltb, Clock.wall_micros,
    Clock.ymd2ord.
  destruct a as [ya ma da ha mia sa ua], b as [yb mb db hb mib sb ub]; simpl in *.
  destruct (days_before_month_year ya ma) as [Ha0 Ha1]; [lia..|].
  destruct (days_before_month_year yb mb) as [Hb0 Hb1]; [lia..|].
  destruct (N.compare_spec ya yb) as [->|Hy|Hy]; [|intros _|done].
  - destruct (N.compare_spec ma mb) as [->|Hm|Hm]; [|intros _|done].
    + destruct (N.compare_spec da db) as [->|Hd|Hd]; [|intros _; lia|done].
      destruct (N.compare_spec ha hb) as [->|Hh|Hh]; [|intros _; lia|done].
      destruct (N.compare_spec mia mib) as [->|Hmi|Hmi]; [|intros _; lia|done].
      destruct (N.compare_spec sa sb) as [->|Hs|Hs]; [|intros _; lia|done].
      destruct (N.compare_spec ua ub) as [->|Hu|Hu]; [done|intros _; lia|done].
    + pose proof (days_before_month_next yb ma mb). lia.
  - pose proof (days_before_year_succ (Z.of_N ya)) as Hs. rewrite N2Z.id in Hs.
    pose proof (days_before_year_mono (Z.of_N ya + 1) (Z.of_N yb)). lia.
Qed.

Lemma fields_ltb_total a b :
  length a = length b →
  Py.fields_ltb a b = false → Py.fields_ltb b a = false → a = b.
Proof.
  revert b. induction a as [|x a IH]; intros [|y b]; simpl; try done.
  intros [= Hlen]. rewrite (N.compare_antisym x y).
  destruct (N.compare_spec x y) as [->|?|?]; simpl; try done.
  intros ??. f_equal. by apply IH.
Qed.

Lemma datetime_ltb_total (a b : Py.datetime) :
  Py.datetime_ltb a b = false → Py.datetime_ltb b a = false → a = b.
Proof.
  unfold Py.datetime_ltb. intros Hab Hba.
  apply fields_ltb_total in Hab; [|done..].
  destruct a, b. by injection Hab as -> -> -> -> -> -> ->.
Qed.

Lemma datetime_not_ltb_chronological (a b : Py.datetime) :
  Py.datetime_ok a = true → Py.datetime_ok b = true →
  Py.datetime_ltb a b = false → Clock.wall_micros b ≤ Clock.wall_micros a.
Proof.
  intros Ha Hb Hab. destruct (Py.datetime_ltb b a) eqn:Hba.
  - pose proof (datetime_ltb_chronological b a Hb Ha Hba). lia.
  - by rewrite (datetime_ltb_total a b Hab Hba).
Qed.
End Chronology.

(** ** [list.sort] on keys that are datetimes *)

Section SortFacts.
Context {A : Type}.
Implicit Types (p q : Py.value * A) (run : list (Py.value * A)).

Lemma insert_keyed_sorted p run :
  dated p → Forall dated run → StronglySorted ascending run →
  ∃ run', PyList.insert_keyed p run = Some run' ∧ run' ≡ₚ p :: run ∧
          StronglySorted ascending run'.
Proof.
  intros [tp Hp] Hrun Hs. induction run as [|q run IH]; simpl.
  - eexists; split_and!; [done..|]. repeat constructor.
  - apply Forall_cons in Hrun as [[tq Hq] Hrun].
    apply StronglySorted_cons in Hs as [Hq_le Hs].
    rewrite Hp, Hq; simpl.
    destruct (Py.datetime_ltb tp tq) eqn:Hlt; simpl.
    + eexists; split_and!; [done..|].
      apply StronglySorted_cons; split; [|by apply StronglySorted_cons].
      apply Forall_cons; split.
      * unfold ascending. rewrite Hp, Hq; simpl. f_equal.
        by apply fields_ltb_asym.
      * clear IH. induction Hq_le as [|z run Hz _ IHz]; [constructor|].
        apply Forall_cons in Hrun as [[tz Htz] Hrun].
        apply StronglySorted_cons in Hs as [_ Hs].
        constructor; [|by apply IHz].
        unfold ascending in *. rewrite Hp, Htz; rewrite Hq, Htz in Hz.
        simpl in *. f_equal.
        destruct (Py.datetime_ltb tz tp) eqn:Hzp; [|done].
        injection Hz as Hz. unfold Py.datetime_ltb in *.
        by rewrite (fields_ltb_trans _ _ _ Hzp Hlt) in Hz.
    + destruct (IH Hrun Hs) as (run' & -> & Hperm & Hs'). simpl.
      eexists; split_and!; [done| |].
      * rewrite Hperm. apply perm_swap.
      * apply StronglySorted_cons; split; [|done].
        rewrite Hperm. apply Forall_cons; split; [|done].
        unfold ascending. by rewrite Hp, Hq; simpl; f_equal.
Qed.

Lemma sort_keyed_sorted run rest :
  Forall dated run → Forall dated rest → StronglySorted ascending run →
  ∃ out, PyList.sort_keyed run rest = Some out ∧ out ≡ₚ (run ++ rest)%list ∧
         StronglySorted ascending out.
Proof.
  revert run. induction rest as [|p rest IH]; intros run Hrun Hrest Hs; simpl.
  - exists run. by rewrite app_nil_r.
  - apply Forall_cons in Hrest as [Hp Hrest].
    destruct (insert_keyed_sorted p run Hp Hrun Hs) as (run' & -> & Hperm & Hs').
    simpl. destruct (IH run') as (out & -> & Hperm' & Hout); [|done..|].
    { rewrite Hperm. by apply Forall_cons. }
    exists out; split_and!; [done| |done].
    rewrite Hperm', Hperm. simpl. apply Permutation_middle.
Qed.

(** A sort that returns has only rearranged the list, whatever the
    keys are. *)
Lemma insert_keyed_perm p run run' :
  PyList.insert_keyed p run = Some run' → run' ≡ₚ p :: run.
Proof.
  revert run'. induction run as [|q run IH]; intros run'; simpl.
  - by intros [= <-].
  - destruct (Py.lt p.1 q.1) as [[]|]; simpl; [by intros [= <-]| |done].
    destruct (PyList.insert_keyed p run) as [run''|]; simpl; [|done].
    intros [= <-]. rewrite (IH run'') by done. apply perm_swap.
Qed.

Lemma sort_keyed_perm run rest out :
  PyList.sort_keyed run rest = Some out → out ≡ₚ (run ++ rest)%list.
Proof.
  revert run. induction rest as [|p rest IH]; intros run; simpl.
  - intros [= <-]. by rewrite app_nil_r.
  - destruct (PyList.insert_keyed p run) as [run'|] eqn:Hins; simpl; [|done].
    intros Hout. rewrite (IH _ Hout), (insert_keyed_perm _ _ _ Hins).
    simpl. apply Permutation_middle.
Qed.

Lemma sort_perm (key : A → Py.value) (reverse : bool) (l out : list A) :
  PyList.sort key reverse l = Some out → out ≡ₚ l.
Proof.
  unfold PyList.sort.
  destruct (PyList.sort_keyed _ _) as [sorted|] eqn:Hs; simpl; [|done].
  intros [= <-]. apply sort_keyed_perm in Hs. simpl in Hs.
  assert (sorted ≡ₚ (λ x, (key x, x)) <$> l) as Hperm.
  { rewrite Hs. destruct reverse; [symmetry; apply Permutation_rev|done]. }
  assert ((if reverse then List.rev sorted else sorted) ≡ₚ sorted) as ->.
  { destruct reverse; [symmetry; apply Permutation_rev|done]. }
  rewrite Hperm, <-list_fmap_compose. by rewrite list_fmap_id.
Qed.

Lemma StronglySorted_rev_flip {B} (R : B → B → Prop) (l : list B) :
  StronglySorted R l → StronglySorted (flip R) (List.rev l).
Proof.
  induction 1 as [|x l Hs IH Hx]; simpl; [constructor|].
  apply StronglySorted_app; split_and!; [|done|repeat constructor].
  intros a b Ha Hb. apply list_elem_of_singleton in Hb as ->.
  rewrite Forall_forall in Hx. apply Hx.
  apply list_elem_of_In, in_rev. by apply list_elem_of_In.
Qed.

Lemma Forall_rev' {B} (P : B → Prop) (l : list B) :
  Forall P l → Forall P (List.rev l).
Proof.
  rewrite !Forall_forall. intros H x Hx. apply H.
  apply list_elem_of_In, in_rev. by apply list_elem_of_In.
Qed.

(** [l.sort(key=key, reverse=True)] on datetime keys: it returns, and
    what it returns is a rearrangement of [l] in which no element is
    followed by one with a greater key. *)
Lemma sort_reverse_dated (key : A → Py.value) (l : list A) :
  Forall (λ x, ∃ t, key x = Py.VDatetime t) l →
  ∃ out, PyList.sort key true l = Some out ∧ out ≡ₚ l ∧
         StronglySorted (λ a b, Py.lt (key a) (key b) = Some false) out.
Proof.
  intros Hl. unfold PyList.sort.
  set (keyed := (λ x, (key x, x)) <$> l).
  assert (Hk : Forall (λ p, dated p ∧ p.1 = key p.2) keyed).
  { subst keyed. apply Forall_fmap. eapply Forall_impl; [exact Hl|].
    intros x [t Ht]; simpl. split; [by exists t|done]. }
  destruct (sort_keyed_sorted [] (List.rev keyed)) as (out & -> & Hperm & Hs).
  { constructor. }
  { apply Forall_rev'. eapply Forall_impl; [exact Hk|]. by intros ? [? _]. }
  { constructor. }
  simpl in *. rewrite <-(Permutation_rev keyed) in Hperm.
  eexists; split_and!; [done| |].
  - rewrite <-(Permutation_rev out), Hperm. subst keyed.
    rewrite <-list_fmap_compose. by rewrite list_fmap_id.
  - assert (Hout : Forall (λ p, p.1 = key p.2) out).
    { rewrite Hperm. eapply Forall_impl; [exact Hk|]. by intros ? [_ ?]. }
    apply StronglySorted_rev_flip in Hs.
    assert (Hrev : Forall (λ p, p.1 = key p.2) (List.rev out)) by by apply Forall_rev'.
    clear Hperm Hout. induction Hs as [|p run Hs IH Hp]; simpl; [constructor|].
    apply Forall_cons in Hrev as [Hpk Hrev].
    constructor; [by apply IH|].
    apply Forall_fmap. rewrite Forall_forall in Hp, Hrev |- *.
    intros q Hq. specialize (Hp q Hq). specialize (Hrev q Hq).
    unfold flip, ascending in Hp. simpl. by rewrite <-Hpk, <-Hrev.
Qed.
End SortFacts.

(** ** [GET /songs] *)

Lemma project_loop docs :
  foldl (λ out d, (out ++ [project_id d])%list) [] docs = project_id <$> docs.
Proof.
  induction docs as [|d docs IH] using rev_ind; [done|].
  by rewrite foldl_snoc, IH, fmap_app.
Qed.

Lemma project_id_id (d : doc) :
  project_id d !! "id" = Some (Py.VStr (Py.str (default (Py.VStr "") (d !! "_id")))).
Proof. unfold project_id, Dict.pop, Dict.set. apply lookup_insert_eq. Qed.

Lemma project_id_no_native (d : doc) : project_id d !! "_id" = None.
Proof.
  unfold project_id, Dict.pop, Dict.set.
  rewrite lookup_insert_ne by done. apply lookup_delete_eq.
Qed.

Lemma project_id_other (d : doc) (k : string) :
  k ≠ "_id" → k ≠ "id" → project_id d !! k = d !! k.
Proof.
  intros H1 H2. unfold project_id, Dict.pop, Dict.set.
  rewrite lookup_insert_ne by done. by rewrite lookup_delete_ne.
Qed.

Lemma created_key_project (d : doc) : created_key (project_id d) = created_key d.
Proof. unfold created_key, Dict.get. by rewrite project_id_other. Qed.

Lemma timestamped_key (d : doc) :
  timestamped d = true →
  ∃ t, created_key d = Py.VDatetime t ∧ Py.datetime_ok t = true.
Proof.
  unfold timestamped, created_key, Dict.get.
  destruct (d !! "created_at") as [[]|]; simpl; try done; eauto.
Qed.

(** On documents whose [created_at] is a timestamp or missing the
    handler returns the projected documents, newest first. *)
Lemma list_songs_of_sorted (docs : list doc) :
  Forall (λ d, timestamped d = true) docs →
  ∃ out, list_songs_of docs = Returned out ∧ out ≡ₚ project_id <$> docs ∧
         StronglySorted not_older out.
Proof.
  intros Hdocs. unfold list_songs_of. rewrite project_loop.
  destruct (sort_reverse_dated created_key (project_id <$> docs))
    as (out & -> & Hperm & Hs); [|by exists out].
  apply Forall_fmap. eapply Forall_impl; [exact Hdocs|].
  intros d [t [Ht _]]%timestamped_key. simpl. exists t.
  by rewrite created_key_project.
Qed.

Lemma list_songs_of_perm (docs out : list doc) :
  list_songs_of docs = Returned out → out ≡ₚ project_id <$> docs.
Proof.
  unfold list_songs_of. rewrite project_loop.
  destruct (PyList.sort _ _ _) as [out'|] eqn:Hs; [|done].
  intros [= <-]. by apply sort_perm in Hs.
Qed.

Lemma not_older_than_min (d : doc) :
  timestamped d = true →
  Py.lt (created_key (project_id d)) (Py.VDatetime Py.datetime_min) = Some false.
Proof.
  intros (t & Ht & Hok)%timestamped_key.
  rewrite created_key_project, Ht. simpl. f_equal. by apply datetime_min_least.
Qed.

Lemma StronglySorted_lookup {B} (R : B → B → Prop) (l : list B) i j a b :
  StronglySorted R l → (i < j)%nat → l !! i = Some a → l !! j = Some b → R a b.
Proof.
  intros Hs. revert i j. induction Hs as [|x l Hs IH Hx]; intros i j Hij Hi Hj; [done|].
  destruct j as [|j]; [lia|]. destruct i as [|i]; simpl in *.
  - injection Hi as ->. rewrite Forall_forall in Hx. apply Hx.
    by eapply list_elem_of_lookup_2.
  - apply (IH i j); [lia|done..].
Qed.

Lemma timestamped_cases (d : doc) :
  timestamped d = true →
  d !! "created_at" = None ∨
  ∃ t, d !! "created_at" = Some (Py.VDatetime t) ∧ Py.datetime_ok t = true.
Proof.
  unfold timestamped. destruct (d !! "created_at") as [[]|]; try done; eauto.
Qed.

Lemma project_id_created_at (d : doc) :
  project_id d !! "created_at" = d !! "created_at".
Proof. by apply project_id_other. Qed.

(** Of two listable records the code's key puts in this order, the
    first is not the older. *)
Lemma not_older_instants (a b : doc) :
  timestamped a = true → timestamped b = true → not_older a b →
  ∃ ta tb, created_instant a = Some ta ∧ created_instant b = Some tb ∧ (tb ≤ ta)%Z.
Proof.
  unfold not_older, created_key, Dict.get, created_instant.
  intros [Ha|(ta & Ha & Hoka)]%timestamped_cases [Hb|(tb & Hb & Hokb)]%timestamped_cases;
    rewrite Ha, Hb; cbn [default Py.lt]; intros Hlt%(inj Some);
    eexists _, _; split_and!; try done; by apply datetime_not_ltb_chronological.
Qed.

Lemma not_older_after_missing (a b : doc) :
  timestamped b = true → not_older a b → a !! "created_at" = None →
  b !! "created_at" = None ∨ b !! "created_at" = Some (Py.VDatetime Py.datetime_min).
Proof.
  unfold not_older, created_key, Dict.get.
  intros [Hb|(tb & Hb & Hokb)]%timestamped_cases Hlt Ha; [by left|right].
  rewrite Ha, Hb in Hlt. cbn [default Py.lt] in Hlt. apply (inj Some) in Hlt.
  rewrite Hb. do 2 f_equal. symmetry.
  apply datetime_ltb_total; [done|]. by apply datetime_min_least.
Qed.

(** C2. Whatever documents the store returns (their [created_at] a
    timestamp, or missing), [GET /songs] answers with the projected
    records, each with the [created_at] of its document, sorted by
    [created_at] descending: of two records the one listed first was not
    created before the other, a record without [created_at] counting as
    created at [datetime.min].  Such a record sorts last: only records
    without [created_at], or stamped [datetime.min], are listed after
    it. *)
Theorem list_songs_newest_first (w : world) :
  Forall (λ d, timestamped d = true) (get_documents "song" w) →
  ∃ out,
    list_songs w = Returned out ∧
    out ≡ₚ project_id <$> get_documents "song" w ∧
    (∀ d, project_id d !! "created_at" = d !! "created_at") ∧
    newest_first out ∧
    (∀ i j a b ta tb, (i < j)%nat → out !! i = Some a → out !! j = Some b →
       a !! "created_at" = Some (Py.VDatetime ta) →
       b !! "created_at" = Some (Py.VDatetime tb) →
       Py.datetime_ltb ta tb = false ∧
       (Clock.wall_micros tb ≤ Clock.wall_micros ta)%Z) ∧
    (∀ i j a b, (i < j)%nat → out !! i = Some a → out !! j = Some b →
       a !! "created_at" = None →
       b !! "created_at" = None ∨
       b !! "created_at" = Some (Py.VDatetime Py.datetime_min)).
Proof.
  intros Hdocs. unfold list_songs.
  destruct (list_songs_of_sorted _ Hdocs) as (out & -> & Hperm & Hs).
  assert (Hout : ∀ r, r ∈ out → timestamped r = true).
  { intros r Hr. rewrite Hperm in Hr.
    apply list_elem_of_fmap in Hr as (d & -> & Hd).
    rewrite Forall_forall in Hdocs. specialize (Hdocs d Hd).
    unfold timestamped in *. by rewrite project_id_created_at. }
  exists out. split_and!; [done|done|apply project_id_created_at| | |].
  - intros i j a b Hij Hi Hj.
    apply not_older_instants.
    + eapply Hout, list_elem_of_lookup_2, Hi.
    + eapply Hout, list_elem_of_lookup_2, Hj.
    + by eapply (StronglySorted_lookup not_older out i j).
  - intros i j a b ta tb Hij Hi Hj Ha Hb.
    pose proof (StronglySorted_lookup not_older out i j a b Hs Hij Hi Hj) as Hab.
    assert (timestamped a = true) as Hta by (eapply Hout, list_elem_of_lookup_2, Hi).
    assert (timestamped b = true) as Htb by (eapply Hout, list_elem_of_lookup_2, Hj).
    unfold not_older, created_key, Dict.get in Hab. rewrite Ha, Hb in Hab.
    cbn [default Py.lt] in Hab. apply (inj Some) in Hab.
    unfold timestamped in Hta, Htb. rewrite Ha in Hta. rewrite Hb in Htb.
    split; [done|]. by apply datetime_not_ltb_chronological.
  - intros i j a b Hij Hi Hj.
    apply not_older_after_missing.
    + eapply Hout, list_elem_of_lookup_2, Hj.
    + by eapply (StronglySorted_lookup not_older out i j).
Qed.

(** C3. Whenever [GET /songs] returns, its records are those made of
    the store's documents: every record has a string [id] and no [_id],
    and the record made of a document with [_id] carries, as [id], the
    string form of that identifier.  It does return on documents whose
    [created_at] is a timestamp or missing. *)
Theorem list_songs_id_projection (w : world) :
  (Forall (λ d, timestamped d = true) (get_documents "song" w) →
   ∃ out, list_songs w = Returned out) ∧
  ∀ out, list_songs w = Returned out →
    out ≡ₚ project_id <$> get_documents "song" w ∧
    (∀ r, r ∈ out → r !! "_id" = None ∧ ∃ s, r !! "id" = Some (Py.VStr s)) ∧
    (∀ d oid, d ∈ get_documents "song" w → d !! "_id" = Some oid →
          project_id d ∈ out ∧
          project_id d !! "id" = Some (Py.VStr (Py.str oid)) ∧
          project_id d !! "_id" = None).
Proof.
  split.
  - intros Hdocs. destruct (list_songs_of_sorted _ Hdocs) as (out & Hout & _).
    by exists out.
  - intros out Hperm%list_songs_of_perm. split_and!; [done| |].
    + intros r Hr. rewrite Hperm in Hr.
      apply list_elem_of_fmap in Hr as (d & -> & _).
      split; [apply project_id_no_native|]. rewrite project_id_id. eauto.
    + intros d oid Hd Hoid. split_and!.
      * rewrite Hperm. by apply list_elem_of_fmap_2.
      * by rewrite project_id_id, Hoid.
      * apply project_id_no_native.
Qed.

(** C9, as the code has it.  Whenever [GET /songs] returns, it has
    neither added, dropped nor repeated a record, and in the record made
    of a document every field other than [_id] and [id] is as the store
    returned it; [id] is assigned, so a field [id] the document already
    had is replaced.  It does return on documents whose [created_at] is
    a timestamp or missing. *)
Theorem list_songs_frame (w : world) :
  (Forall (λ d, timestamped d = true) (get_documents "song" w) →
   ∃ out, list_songs w = Returned out) ∧
  ∀ out, list_songs w = Returned out →
    out ≡ₚ project_id <$> get_documents "song" w ∧
    ∀ (d : doc) (k : string), k ≠ "_id" → k ≠ "id" → project_id d !! k = d !! k.
Proof.
  split.
  - intros Hdocs. destruct (list_songs_of_sorted _ Hdocs) as (out & Hout & _).
    by exists out.
  - intros out Hperm%list_songs_of_perm. split; [done|].
    intros. by apply project_id_other.
Qed.

(** C10. A document without [_id] does not make [GET /songs] fail: the
    projection has a default and never raises, the endpoint returns on
    documents whose [created_at] is a timestamp or missing, and whenever
    it returns the record of such a document is listed with the empty
    string as [id]. *)
Theorem list_songs_missing_native_id (w : world) :
  (Forall (λ d, timestamped d = true) (get_documents "song" w) →
   ∃ out, list_songs w = Returned out) ∧
  ∀ out, list_songs w = Returned out →
    ∀ d, d ∈ get_documents "song" w → d !! "_id" = None →
         project_id d ∈ out ∧ project_id d !! "id" = Some (Py.VStr "").
Proof.
  split.
  - intros Hdocs. destruct (list_songs_of_sorted _ Hdocs) as (out & Hout & _).
    by exists out.
  - intros out Hperm%list_songs_of_perm d Hd Hnone. split.
    + rewrite Hperm. by apply list_elem_of_fmap_2.
    + by rewrite project_id_id, Hnone.
Qed.

(** ** [GET /songs] on the sample data *)

Lemma sample_songs_timestamped :
  Forall (λ d, timestamped d = true)
         (get_documents "song" (with_songs [song_x; song_bare; song_y])).
Proof. repeat constructor. Defined.

Lemma list_songs_newest_first_witness :
  ∃ out,
    list_songs (with_songs [song_x; song_bare; song_y]) = Returned out ∧
    out ≡ₚ project_id <$> get_documents "song" (with_songs [song_x; song_bare; song_y]) ∧
    (∀ d, project_id d !! "created_at" = d !! "created_at") ∧
    newest_first out ∧
    (∀ i j a b ta tb, (i < j)%nat → out !! i = Some a → out !! j = Some b →
       a !! "created_at" = Some (Py.VDatetime ta) →
       b !! "created_at" = Some (Py.VDatetime tb) →
       Py.datetime_ltb ta tb = false ∧
       (Clock.wall_micros tb ≤ Clock.wall_micros ta)%Z) ∧
    (∀ i j a b, (i < j)%nat → out !! i = Some a → out !! j = Some b →
       a !! "created_at" = None →
       b !! "created_at" = None ∨
       b !! "created_at" = Some (Py.VDatetime Py.datetime_min)).
Proof.
  apply (list_songs_newest_first (with_songs [song_x; song_bare; song_y])).
  repeat constructor.
Defined.

(** Spec section 8: inserting X then Y lists Y before X; the record
    without a timestamp comes last. *)
Example list_songs_sample :
  list_songs (with_songs [song_x; song_bare; song_y])
  = Returned [project_id song_y; project_id song_x; project_id song_bare].
Proof. reflexivity. Qed.

Lemma list_songs_id_projection_witness :
  ∃ out,
    list_songs (with_songs [song_x; song_bare; song_y]) = Returned out ∧
    out ≡ₚ project_id <$> get_documents "song" (with_songs [song_x; song_bare; song_y]) ∧
    (∀ r, r ∈ out → r !! "_id" = None ∧ ∃ s, r !! "id" = Some (Py.VStr s)) ∧
    (∀ d oid, d ∈ get_documents "song" (with_songs [song_x; song_bare; song_y]) →
          d !! "_id" = Some oid →
          project_id d ∈ out ∧
          project_id d !! "id" = Some (Py.VStr (Py.str oid)) ∧
          project_id d !! "_id" = None).
Proof.
  destruct (list_songs_id_projection (with_songs [song_x; song_bare; song_y]))
    as [Hreturns Hrecords].
  destruct (Hreturns sample_songs_timestamped) as [out Hout].
  exists out. split; [exact Hout|]. exact (Hrecords out Hout).
Defined.

Example project_id_sample :
  project_id song_x
  = {[ "id" := Py.VStr "000000000000000000000001"; "title" := Py.VStr "X";
       "created_at" := Py.VDatetime (sample_clock 0) ]}.
Proof. reflexivity. Qed.

(** C9 as stated fails on a document that has a field [id]: the pair
    [id = "legacy"] is not the store-native identifier, and the record
    returned holds another value under [id]. *)
Lemma list_songs_replaces_id :
  list_songs (with_songs [song_legacy]) = Returned [project_id song_legacy] ∧
  song_legacy !! "id" = Some (Py.VStr "legacy") ∧
  project_id song_legacy !! "id" = Some (Py.VStr "000000000000000000000007") ∧
  project_id song_legacy !! "id" ≠ song_legacy !! "id".
Proof. split_and!; [reflexivity..|discriminate]. Qed.

Lemma list_songs_frame_witness :
  ∃ out,
    list_songs (with_songs [song_legacy; song_x]) = Returned out ∧
    out ≡ₚ project_id <$> get_documents "song" (with_songs [song_legacy; song_x]) ∧
    ∀ (d : doc) (k : string), k ≠ "_id" → k ≠ "id" → project_id d !! k = d !! k.
Proof.
  destruct (list_songs_frame (with_songs [song_legacy; song_x]))
    as [Hreturns Hrecords].
  destruct Hreturns as [out Hout]; [repeat constructor|].
  exists out. split; [exact Hout|]. exact (Hrecords out Hout).
Defined.

Lemma list_songs_missing_native_id_witness :
  ∃ out,
    list_songs (with_songs [song_x; song_bare; song_y]) = Returned out ∧
    ∀ d, d ∈ get_documents "song" (with_songs [song_x; song_bare; song_y]) →
         d !! "_id" = None →
         project_id d ∈ out ∧ project_id d !! "id" = Some (Py.VStr "").
Proof.
  destruct (list_songs_missing_native_id (with_songs [song_x; song_bare; song_y]))
    as [Hreturns Hrecords].
  destruct (Hreturns sample_songs_timestamped) as [out Hout].
  exists out. split; [exact Hout|]. exact (Hrecords out Hout).
Defined.

(** A [created_at] that is not a timestamp can stop the sort: the
    comparison with a datetime raises [TypeError]. *)
Example list_songs_type_error :
  list_songs (with_songs [song_x; <["created_at" := Py.VStr "today"]> song_y])
  = Unhandled "TypeError".
Proof. reflexivity. Qed.

(** ** [POST /songs] *)

Lemma create_document_appends `{BaseModel A} (c : string) (data : A) (w : world) :
  (create_document c data w).1 = Py.str (ObjectId (next_oid w)) ∧
  get_documents c (create_document c data w).2
  = (get_documents c w ++ [stored data w])%list ∧
  (∀ c', c' ≠ c →
     get_documents c' (create_document c data w).2 = get_documents c' w) ∧
  files (create_document c data w).2 = files w.
Proof.
  unfold create_document, get_documents, stored; simpl. split_and!.
  - done.
  - by rewrite lookup_insert_eq.
  - intros c' Hc'. by rewrite lookup_insert_ne.
  - done.
Qed.

Lemma stored_fields `{BaseModel A} (data : A) (w : world) (k : string) :
  k ≠ "_id" → k ≠ "created_at" → stored data w !! k = model_dump data !! k.
Proof. intros. unfold stored. by rewrite !lookup_insert_ne. Qed.

Lemma stored_id `{BaseModel A} (data : A) (w : world) :
  stored data w !! "_id" = Some (ObjectId (next_oid w)).
Proof. unfold stored. rewrite lookup_insert_ne by done. apply lookup_insert_eq. Qed.

(** The handler on a non-empty [audioUrl]: one call of
    [create_document], whose identifier is returned. *)
Lemma create_song_accepts (song : SongCreate.t) (w : world) (url : string) :
  SongCreate.audioUrl song = Some url → url ≠ "" →
  create_song song w
  = (Returned {[ "id" := Py.VStr (create_document "song" song w).1 ]},
     (create_document "song" song w).2).
Proof.
  intros Hu Hne. unfold create_song. rewrite Hu.
  change (Py.truthy (opt_str (Some url))) with (negb (String.eqb url "")).
  destruct (String.eqb_spec url ""); [done|]. cbn [negb].
  by destruct (create_document "song" song w).
Qed.

(** C1. [POST /songs] with [audioUrl] missing or empty raises the 400
    with its fixed message and leaves the world as it was; with a
    non-empty [audioUrl] it returns [{id}], [id] being the string of the
    identifier the store gave the one document it appended to ["song"],
    a document that holds the fields of the request. *)
Theorem create_song_audioUrl (song : SongCreate.t) (w : world) :
  (SongCreate.audioUrl song = None ∨ SongCreate.audioUrl song = Some "" →
   create_song song w
   = (HTTPException 400 "audioUrl is required when not uploading a file.", w)) ∧
  (∀ url, SongCreate.audioUrl song = Some url → url ≠ "" →
   ∃ new_id w',
     create_song song w = (Returned {[ "id" := Py.VStr new_id ]}, w') ∧
     get_documents "song" w' = (get_documents "song" w ++ [stored song w])%list ∧
     (∀ c, c ≠ "song" → get_documents c w' = get_documents c w) ∧
     Py.str <$> stored song w !! "_id" = Some new_id ∧
     (∀ k, k ≠ "_id" → k ≠ "created_at" →
           stored song w !! k = model_dump song !! k) ∧
     stored song w !! "audioUrl" = Some (Py.VStr url)).
Proof.
  split.
  - intros [Hu|Hu]; unfold create_song; rewrite Hu; reflexivity.
  - intros url Hu Hne. rewrite (create_song_accepts song w url Hu Hne).
    destruct (create_document_appends "song" song w) as (Hid & Hdocs & Hoth & _).
    eexists _, _. split_and!.
    + reflexivity.
    + exact Hdocs.
    + exact Hoth.
    + rewrite stored_id, Hid. reflexivity.
    + intros. by apply stored_fields.
    + rewrite stored_fields by done. unfold model_dump, SongCreate_model, song_fields.
      rewrite Hu. reflexivity.
Qed.

Lemma create_song_audioUrl_witness :
  create_song song_ab sample_world
  = (HTTPException 400 "audioUrl is required when not uploading a file.",
     sample_world) ∧
  ∃ new_id w',
    create_song song_ab_url sample_world
    = (Returned {[ "id" := Py.VStr new_id ]}, w') ∧
    get_documents "song" w'
    = (get_documents "song" sample_world ++ [stored song_ab_url sample_world])%list ∧
    (∀ c, c ≠ "song" → get_documents c w' = get_documents c sample_world) ∧
    Py.str <$> stored song_ab_url sample_world !! "_id" = Some new_id ∧
    (∀ k, k ≠ "_id" → k ≠ "created_at" →
          stored song_ab_url sample_world !! k = model_dump song_ab_url !! k) ∧
    stored song_ab_url sample_world !! "audioUrl" = Some (Py.VStr "http://x/y.mp3").
Proof.
  split.
  - apply (create_song_audioUrl song_ab sample_world). left. reflexivity.
  - apply (proj2 (create_song_audioUrl song_ab_url sample_world) "http://x/y.mp3").
    + reflexivity.
    + discriminate.
Defined.

(** Spec section 8: the 400 of a body without [audioUrl], and the
    round trip of a body with one through [GET /songs]. *)
Example create_song_no_audioUrl :
  post_songs (SongCreate.mk_body (Some "A") (Some "B") None None None None) sample_world
  = (HTTPException 400 "audioUrl is required when not uploading a file.",
     sample_world).
Proof. reflexivity. Qed.

Example create_then_list :
  (create_song song_ab_url sample_world).1
  = Returned {[ "id" := Py.VStr "000000000000000000000001" ]} ∧
  list_songs (create_song song_ab_url sample_world).2
  = Returned [ {[ "id" := Py.VStr "000000000000000000000001";
                  "title" := Py.VStr "A"; "artist" := Py.VStr "B";
                  "album" := Py.VNone; "coverUrl" := Py.VNone;
                  "audioUrl" := Py.VStr "http://x/y.mp3";
                  "duration" := Py.VNone;
                  "created_at" := Py.VDatetime (sample_clock 0) ]} ].
Proof. split; reflexivity. Qed.

(** ** [POST /songs/upload] *)

Lemma utcnow_eq w : utcnow w = (utc_clock w (clock_reads w),
   mk_world (store w) (next_oid w) (files w) (writable w) (cwd w)
            (utc_clock w) (S (clock_reads w)) (utcoffset w)).
Proof. reflexivity. Qed.

Lemma upload_song_cases title artist album audio cover w :
  if can_store audio cover w then
    ∃ new_id w' d,
      upload_song title artist album audio cover w
      = (Returned (upload_body new_id audio cover w), w') ∧
      get_documents "song" w' = (get_documents "song" w ++ [d])%list ∧
      Py.str <$> d !! "_id" = Some new_id ∧
      d !! "title" = Some (Py.VStr title) ∧
      d !! "artist" = Some (Py.VStr artist) ∧
      d !! "album" = Some (opt_str album) ∧
      d !! "audioUrl" = Some (Py.VStr ("/media/audio/" ++ audio_name audio w)) ∧
      d !! "coverUrl"
      = Some (opt_str ((λ c, "/media/covers/" ++ cover_name c w) <$> cover)) ∧
      d !! "duration" = Some Py.VNone
  else
    ∃ w', upload_song title artist album audio cover w = (Unhandled "OSError", w') ∧
          get_documents "song" w' = get_documents "song" w.
Proof.
  unfold can_store, upload_body, audio_path, cover_path, audio_name, cover_name.
  unfold upload_song, save_cover. rewrite !utcnow_eq.
  cbv beta iota zeta. unfold write_file, Song.new, utcnow.
  unfold AUDIO_DIR, COVER_DIR, UPLOAD_DIR.
  cbn [cwd utcoffset writable utc_clock clock_reads from_option].
  destruct (writable w _) eqn:Ha; cbn [andb];
    cbn [cwd utcoffset writable utc_clock clock_reads store next_oid files];
    [|eexists; split; reflexivity].
  destruct cover as [c|]; cbn [from_option fmap option_fmap option_map].
  - match goal with
    | |- if writable w ?p then _ else _ => destruct (writable w p) eqn:Hc
    end;
      cbn [cwd utcoffset writable utc_clock clock_reads store next_oid files];
      [|eexists; split; reflexivity].
    match goal with
    | |- context [create_document "song" ?s ?w0] =>
        destruct (create_document_appends "song" s w0) as (Hid & Hdocs & _ & _);
        destruct (create_document "song" s w0) as [new_id w'];
        exists new_id, w', (stored s w0)
    end.
    cbn [fst snd] in *.
    split_and!.
    + reflexivity.
    + exact Hdocs.
    + rewrite stored_id, Hid. reflexivity.
    + rewrite stored_fields by done. reflexivity.
    + rewrite stored_fields by done. reflexivity.
    + rewrite stored_fields by done. reflexivity.
    + rewrite stored_fields by done. reflexivity.
    + rewrite stored_fields by done. reflexivity.
    + rewrite stored_fields by done. reflexivity.
  - match goal with
    | |- context [create_document "song" ?s ?w0] =>
        destruct (create_document_appends "song" s w0) as (Hid & Hdocs & _ & _);
        destruct (create_document "song" s w0) as [new_id w'];
        exists new_id, w', (stored s w0)
    end.
    cbn [fst snd] in *.
    split_and!.
    + reflexivity.
    + exact Hdocs.
    + rewrite stored_id, Hid. reflexivity.
    + rewrite stored_fields by done. reflexivity.
    + rewrite stored_fields by done. reflexivity.
    + rewrite stored_fields by done. reflexivity.
    + rewrite stored_fields by done. reflexivity.
    + rewrite stored_fields by done. reflexivity.
    + rewrite stored_fields by done. reflexivity.
Qed.

(** C8. When both files are written, [upload_song] returns a dict with
    exactly the keys [id], [audioUrl] and [coverUrl]; with a cover,
    [coverUrl] is ["/media/covers/"] followed by the name derived for
    the cover; without one [coverUrl] is [None] (the key is there, its
    value is the null). *)
Theorem upload_song_coverUrl title artist album audio cover w :
  can_store audio cover w = true →
  ∃ new_id w' body,
    upload_song title artist album audio cover w = (Returned body, w') ∧
    dom body = {[ "id"; "audioUrl"; "coverUrl" ]} ∧
    body !! "id" = Some (Py.VStr new_id) ∧
    body !! "audioUrl" = Some (Py.VStr ("/media/audio/" ++ audio_name audio w)) ∧
    body !! "coverUrl"
    = Some (match cover with
            | Some c => Py.VStr ("/media/covers/" ++ cover_name c w)
            | None => Py.VNone
            end).
Proof.
  intros Hok. pose proof (upload_song_cases title artist album audio cover w) as H.
  rewrite Hok in H. destruct H as (new_id & w' & d & -> & _).
  exists new_id, w', (upload_body new_id audio cover w).
  unfold upload_body. split_and!.
  - reflexivity.
  - rewrite !dom_insert_L, dom_singleton_L. set_solver.
  - reflexivity.
  - reflexivity.
  - destruct cover; reflexivity.
Qed.

Lemma upload_song_coverUrl_witness :
  ∃ new_id w' body,
    upload_song "A" "B" None upload_ab (Some upload_cover) sample_world
    = (Returned body, w') ∧
    dom body = {[ "id"; "audioUrl"; "coverUrl" ]} ∧
    body !! "id" = Some (Py.VStr new_id) ∧
    body !! "audioUrl"
    = Some (Py.VStr ("/media/audio/" ++ audio_name upload_ab sample_world)) ∧
    body !! "coverUrl"
    = Some (Py.VStr ("/media/covers/" ++ cover_name upload_cover sample_world)).
Proof.
  apply (upload_song_coverUrl "A" "B" None upload_ab (Some upload_cover) sample_world).
  reflexivity.
Defined.

(** Spec section 8, on a host in UTC: the stored names have the spaces
    replaced and a leading timestamp. *)
Example upload_song_sample :
  (upload_song "A" "B" None upload_ab (Some upload_cover) sample_world).1
  = Returned {[ "id" := Py.VStr "000000000000000000000001";
                "audioUrl" := Py.VStr "/media/audio/1700000000_a_b.mp3";
                "coverUrl" := Py.VStr "/media/covers/1700000001_my_cover.png" ]}.
Proof. reflexivity. Qed.

Example upload_song_no_cover :
  (upload_song "A" "B" None upload_ab None sample_world).1
  = Returned {[ "id" := Py.VStr "000000000000000000000001";
                "audioUrl" := Py.VStr "/media/audio/1700000000_a_b.mp3";
                "coverUrl" := Py.VNone ]}.
Proof. reflexivity. Qed.

(** ** Required fields and constraints *)

(** C6 as stated fails: [SongCreate] declares [title] and [artist] as
    [str] with no minimum length, so a body whose [title] and [artist]
    are the empty string is accepted, and the document is stored with
    both empty. *)
Lemma post_songs_accepts_empty_names :
  (post_songs body_empty_names sample_world).1
  = Returned {[ "id" := Py.VStr "000000000000000000000001" ]} ∧
  (λ d : doc, (d !! "title", d !! "artist"))
    <$> get_documents "song" (post_songs body_empty_names sample_world).2
  = [(Some (Py.VStr ""), Some (Py.VStr ""))].
Proof. split; reflexivity. Qed.

Lemma form_text_some (v : option string) (t : string) :
  form_text v = Some t ↔ v = Some t ∧ t ≠ "".
Proof.
  destruct v as [[|c v]|]; simpl; split; try done.
  - by intros [[= <-] ?].
  - by intros [= <-].
  - by intros [? _].
  - by intros [? _].
Qed.

Lemma form_text_none (v : option string) :
  form_text v = None ↔ v = None ∨ v = Some "".
Proof. destruct v as [[|c v]|]; simpl; split; try done; auto; by intros [|]. Qed.

(** What [POST /songs] has stored when it returns. *)
Lemma post_songs_returned (b : SongCreate.body) (w w' : world) (body : doc) :
  post_songs b w = (Returned body, w') →
  ∃ song, SongCreate.validate b = Some song ∧
          get_documents "song" w' = (get_documents "song" w ++ [stored song w])%list.
Proof.
  unfold post_songs. destruct (SongCreate.validate b) as [song|]; [|done].
  unfold create_song. destruct (negb _); [done|].
  destruct (create_document_appends "song" song w) as (_ & Hdocs & _ & _).
  destruct (create_document "song" song w) as [new_id w'']. simpl in Hdocs.
  intros [= _ <-]. by exists song.
Qed.

(** C6, as the code has it.  [title] and [artist] are required on both
    routes: a request that lacks either is refused (422, nothing
    stored).  [POST /songs/upload] also refuses an empty [title] or
    [artist], so the document it stores has both non-empty.
    [POST /songs] does not: it accepts any text for them, the empty
    string too, and the document it stores holds the [title] and
    [artist] of the request, empty or not. *)
Theorem songs_title_artist_required :
  (∀ b w, SongCreate.b_title b = None ∨ SongCreate.b_artist b = None →
          post_songs b w = (RequestValidationError, w)) ∧
  (∀ b w t a u,
     SongCreate.b_title b = Some t → SongCreate.b_artist b = Some a →
     SongCreate.b_audioUrl b = Some u → u ≠ "" →
     ∃ new_id w' d,
       post_songs b w = (Returned {[ "id" := Py.VStr new_id ]}, w') ∧
       get_documents "song" w' = (get_documents "song" w ++ [d])%list ∧
       d !! "title" = Some (Py.VStr t) ∧ d !! "artist" = Some (Py.VStr a)) ∧
  (∀ b w body w',
     post_songs b w = (Returned body, w') →
     ∃ t a d,
       SongCreate.b_title b = Some t ∧ SongCreate.b_artist b = Some a ∧
       get_documents "song" w' = (get_documents "song" w ++ [d])%list ∧
       d !! "title" = Some (Py.VStr t) ∧ d !! "artist" = Some (Py.VStr a)) ∧
  (∀ f w, f_title f = None ∨ f_title f = Some "" ∨
          f_artist f = None ∨ f_artist f = Some "" →
          post_songs_upload f w = (RequestValidationError, w)) ∧
  (∀ f w body w',
     post_songs_upload f w = (Returned body, w') →
     ∃ title artist d,
       f_title f = Some title ∧ f_artist f = Some artist ∧
       title ≠ "" ∧ artist ≠ "" ∧
       get_documents "song" w' = (get_documents "song" w ++ [d])%list ∧
       d !! "title" = Some (Py.VStr title) ∧
       d !! "artist" = Some (Py.VStr artist)) ∧
  (∀ f w title artist audio,
     f_title f = Some title → title ≠ "" →
     f_artist f = Some artist → artist ≠ "" →
     f_audio f = Some audio → can_store audio (f_cover f) w = true →
     ∃ body w', post_songs_upload f w = (Returned body, w')).
Proof.
  split_and!.
  - intros b w [Hn|Hn]; unfold post_songs, SongCreate.validate; rewrite Hn.
    + reflexivity.
    + by destruct (SongCreate.b_title b).
  - intros b w t a u Ht Ha Hu Hne.
    unfold post_songs, SongCreate.validate. rewrite Ht, Ha. cbn [mbind option_bind].
    match goal with
    | |- context [create_song ?s w] =>
        rewrite (create_song_accepts s w u Hu Hne);
        destruct (create_document_appends "song" s w) as (_ & Hdocs & _ & _);
        eexists _, _, (stored s w); split_and!;
        [reflexivity | exact Hdocs | rewrite stored_fields by done; reflexivity ..]
    end.
  - intros b w body w' (song & Hv & Hdocs)%post_songs_returned.
    unfold SongCreate.validate in Hv.
    destruct (SongCreate.b_title b) as [t|]; [|done].
    destruct (SongCreate.b_artist b) as [a|]; [|done].
    injection Hv as <-. eexists t, a, _.
    split_and!; [done|done|exact Hdocs|by rewrite stored_fields..].
  - intros f w H. unfold post_songs_upload.
    assert (form_text (f_title f) = None ∨ form_text (f_artist f) = None) as [->| ->].
    { rewrite !form_text_none. tauto. }
    + done.
    + by destruct (form_text (f_title f)).
  - intros f w body w'. unfold post_songs_upload.
    destruct (form_text (f_title f)) as [title|] eqn:Ht; [|done].
    destruct (form_text (f_artist f)) as [artist|] eqn:Ha; [|done].
    destruct (f_audio f) as [audio|]; [|done].
    apply form_text_some in Ht as [Ht Hte], Ha as [Ha Hae].
    pose proof (upload_song_cases title artist (form_text (f_album f)) audio
                  (f_cover f) w) as H.
    destruct (can_store audio (f_cover f) w).
    + destruct H as (new_id & w'' & d & -> & Hdocs & _ & Hdt & Hda & _).
      intros [= _ <-]. by exists title, artist, d.
    + destruct H as (w'' & -> & _). done.
  - intros f w title artist audio Ht Hte Ha Hae Hau Hok.
    unfold post_songs_upload.
    rewrite (proj2 (form_text_some _ _) (conj Ht Hte)).
    rewrite (proj2 (form_text_some _ _) (conj Ha Hae)), Hau.
    pose proof (upload_song_cases title artist (form_text (f_album f)) audio
                  (f_cover f) w) as H.
    rewrite Hok in H. destruct H as (new_id & w' & d & -> & _). eauto.
Qed.

Lemma songs_title_artist_required_witness :
  (∃ new_id w' d,
     post_songs body_empty_names sample_world
     = (Returned {[ "id" := Py.VStr new_id ]}, w') ∧
     get_documents "song" w' = (get_documents "song" sample_world ++ [d])%list ∧
     d !! "title" = Some (Py.VStr "") ∧ d !! "artist" = Some (Py.VStr "")) ∧
  post_songs_upload form_empty_title sample_world
  = (RequestValidationError, sample_world) ∧
  ∃ body w', post_songs_upload form_ab sample_world = (Returned body, w').
Proof.
  split_and!.
  - apply (proj1 (proj2 songs_title_artist_required)
             body_empty_names sample_world "" "" "http://x/y.mp3").
    + reflexivity.
    + reflexivity.
    + reflexivity.
    + discriminate.
  - apply (proj1 (proj2 (proj2 (proj2 songs_title_artist_required)))
             form_empty_title sample_world).
    right. left. reflexivity.
  - apply (proj2 (proj2 (proj2 (proj2 (proj2 songs_title_artist_required))))
             form_ab sample_world "A" "B" upload_ab).
    + reflexivity.
    + discriminate.
    + reflexivity.
    + discriminate.
    + reflexivity.
    + reflexivity.
Defined.

(** [POST /songs/upload] with the [title] sent empty: refused before
    anything is written; with it, the song is stored. *)
Example post_songs_upload_sample :
  post_songs_upload form_empty_title sample_world
  = (RequestValidationError, sample_world) ∧
  (post_songs_upload form_ab sample_world).1
  = Returned {[ "id" := Py.VStr "000000000000000000000001";
                "audioUrl" := Py.VStr "/media/audio/1700000000_a_b.mp3";
                "coverUrl" := Py.VNone ]}.
Proof. split; reflexivity. Qed.

Example post_songs_without_title :
  post_songs (SongCreate.mk_body None (Some "B") None None (Some "http://x/y.mp3") None)
             sample_world
  = (RequestValidationError, sample_world).
Proof. reflexivity. Qed.

(** C7 does not hold of [POST /songs]: [SongCreate.duration] is a plain
    [Optional[float]], so a body with [duration = -1] is accepted and
    stored as it is, although [schemas.Song], the schema of the same
    collection, declares [duration] with [ge=0] and refuses that value. *)
Theorem post_songs_negative_duration :
  (post_songs body_negative_duration sample_world).1
  = Returned {[ "id" := Py.VStr "000000000000000000000001" ]} ∧
  (λ d : doc, d !! "duration")
    <$> get_documents "song" (post_songs body_negative_duration sample_world).2
  = [Some (Py.VFloat (Py.float_of_Z (-1)))] ∧
  Py.float_nonneg (Py.float_of_Z (-1)) = false ∧
  Song.new "A" "B" None None (Some "http://x/y.mp3") (Some (Py.float_of_Z (-1)))
  = None.
Proof. split_and!; reflexivity. Qed.

(** What [Song] does enforce: a [Song] that was constructed has no
    negative [duration]. *)
Lemma Song_duration_nonneg title artist album coverUrl audioUrl duration s x :
  Song.new title artist album coverUrl audioUrl duration = Some s →
  Song.duration s = Some x → Py.float_nonneg x = true.
Proof.
  unfold Song.new. destruct duration as [y|]; simpl.
  - destruct (Py.float_nonneg y) eqn:Hy; [|done]. intros [= <-] [= <-]. done.
  - intros [= <-]. done.
Qed.

(** ** The derived file name *)

Lemma ymd2ord_epoch : Clock.ymd2ord 1970 1 1 = 719163%Z.
Proof. reflexivity. Qed.

(** The shape of the name, whatever the zone of the host. *)
Lemma audio_name_shape (audio : UploadFile) (w : world) :
  audio_name audio w
  = pretty (Z.quot (Clock.wall_micros (utc_clock w (clock_reads w))
                    - utcoffset w * 1000000) 1000000)
    ++ "_" ++ replace_spaces (filename audio).
Proof. reflexivity. Qed.

(** On a host whose local zone is UTC (and a clock past 1970) the
    number in front is the Unix time in whole seconds. *)
Lemma audio_name_utc (audio : UploadFile) (w : world) :
  utcoffset w = 0%Z →
  (0 ≤ Clock.wall_micros (utc_clock w (clock_reads w)))%Z →
  audio_name audio w
  = pretty (Clock.unix_seconds (utc_clock w (clock_reads w)))
    ++ "_" ++ replace_spaces (filename audio).
Proof.
  intros Hoff Hpos. rewrite audio_name_shape, Hoff.
  unfold Clock.unix_seconds. rewrite Z.sub_0_r.
  by rewrite Z.quot_div_nonneg by lia.
Qed.

Lemma replace_spaces_app (s t : string) :
  replace_spaces (s ++ t) = replace_spaces s ++ replace_spaces t.
Proof.
  induction s as [|c s IH]; [done|].
  change (String c s ++ t) with (String c (s ++ t)). simpl. rewrite IH. done.
Qed.

(** A suffix without spaces, such as the usual extensions, is kept. *)
Lemma replace_spaces_keeps (s : string) :
  (∀ i, String.get i s ≠ Some " "%char) → replace_spaces s = s.
Proof.
  induction s as [|c s IH]; intros Hs; simpl; [done|].
  destruct (Ascii.eqb_spec c " ") as [->|_]; [by destruct (Hs 0%nat)|].
  f_equal. apply IH. intros i. apply (Hs (S i)).
Qed.

Lemma replace_spaces_length (s : string) :
  String.length (replace_spaces s) = String.length s.
Proof. induction s as [|c s IH]; simpl; [done|by rewrite IH]. Qed.

Lemma replace_spaces_no_space (s : string) (i : nat) :
  String.get i (replace_spaces s) ≠ Some " "%char.
Proof.
  revert i. induction s as [|c s IH]; intros i; simpl; [done|].
  destruct i as [|i]; [|apply IH].
  destruct (Ascii.eqb_spec c " "); congruence.
Qed.

(** C4 does not hold on a host whose local zone is not UTC.
    [datetime.utcnow()] is naive and [timestamp()] reads a naive
    datetime as local time, so the number in front of the name is the
    Unix time less the zone's offset: one hour east of UTC, at Unix time
    1700000000, the upload of ["a b.mp3"] is stored as
    ["1699996400_a_b.mp3"]. *)
Theorem upload_song_name_in_local_zone :
  Clock.unix_seconds (utc_clock east_world (clock_reads east_world))
  = 1700000000%Z ∧
  audio_name upload_ab east_world = "1699996400_a_b.mp3" ∧
  (upload_song "A" "B" None upload_ab None east_world).1
  = Returned {[ "id" := Py.VStr "000000000000000000000001";
                "audioUrl" := Py.VStr "/media/audio/1699996400_a_b.mp3";
                "coverUrl" := Py.VNone ]}.
Proof. split_and!; reflexivity. Qed.

(** ** [GET /test] *)

Lemma slice_to_len (n : nat) (s : string) :
  Py.len (Py.slice_to n s) = Nat.min n (Py.len s).
Proof.
  revert n. induction s as [|c s IH]; intros n; simpl; [by destruct n|].
  destruct (Py.continuation c) eqn:Hc; simpl; rewrite ?Hc; [apply IH|].
  destruct n as [|n]; simpl; rewrite ?Hc, ?IH; done.
Qed.

Lemma slice_to_all (n : nat) (s : string) :
  (Py.len s ≤ n)%nat → Py.slice_to n s = s.
Proof.
  revert n. induction s as [|c s IH]; intros n; simpl; [done|].
  destruct (Py.continuation c).
  - intros ?. by rewrite IH.
  - destruct n as [|n]; [lia|]. intros ?. rewrite IH; [done|lia].
Qed.

Lemma slice_to_prefix (n : nat) (s : string) :
  ∃ rest, s = Py.slice_to n s ++ rest ∧ char_boundary rest.
Proof.
  revert n. induction s as [|c s IH]; intros n; simpl; [by exists ""|].
  destruct (Py.continuation c) eqn:Hc.
  - destruct (IH n) as (rest & Hr & Hb). exists rest. split; [|done].
    change (String c s = String c (Py.slice_to n s ++ rest)). by f_equal.
  - destruct n as [|n]; [by exists (String c s)|].
    destruct (IH n) as (rest & Hr & Hb). exists rest. split; [|done].
    change (String c s = String c (Py.slice_to n s ++ rest)). by f_equal.
Qed.

Lemma slice_to_first_chars (n : nat) (s : string) :
  first_chars n s (Py.slice_to n s).
Proof.
  split_and!; [apply slice_to_prefix|apply slice_to_len|apply slice_to_all].
Qed.

Lemma str50_short (e : Diag.exn) : (Py.len (Diag.str50 e) ≤ 50)%nat.
Proof. unfold Diag.str50. rewrite slice_to_len. lia. Qed.

Lemma get_test_no_handle environ :
  Diag.get_test None environ
  = Returned (diag_response environ "⚠️  Available but not initialized"
                            "Not Connected" []).
Proof. reflexivity. Qed.

Lemma get_test_name_raises e lst environ :
  Diag.get_test (Some (Diag.mk_db (Diag.AttrRaises e) lst)) environ
  = Returned (diag_response environ ("❌ Error: " ++ Diag.str50 e)
                            "Not Connected" []).
Proof. reflexivity. Qed.

Lemma get_test_listing_raises nm e environ :
  (∀ e', nm ≠ Diag.AttrRaises e') →
  Diag.get_test (Some (Diag.mk_db nm (inl e))) environ
  = Returned (diag_response environ ("⚠️  Connected but Error: " ++ Diag.str50 e)
                            "Connected" []).
Proof. intros Hnm. destruct nm; [reflexivity..|by destruct (Hnm e0)]. Qed.

Lemma get_test_working nm names environ :
  (∀ e', nm ≠ Diag.AttrRaises e') →
  Diag.get_test (Some (Diag.mk_db nm (inr names))) environ
  = Returned (diag_response environ "✅ Connected & Working" "Connected"
                            (take 10 names)).
Proof. intros Hnm. destruct nm; [reflexivity..|by destruct (Hnm e)]. Qed.

(** C5. Whatever the state of the handle [db] and of the environment,
    [GET /test] returns its dict (status 200): no exception leaves the
    handler.  An exception raised while the handle is inspected ends up
    in the field [database], as a fixed prefix followed by [str(e)] cut
    to its first 50 characters: the text shown begins the message, has
    50 characters, or all of them when the message has no more, and is
    the whole message in that case.  [collections] holds the first 10
    names listed, or none. *)
Theorem test_database_always_returns (db : option Diag.Database)
    (environ : gmap string string) :
  ∃ r,
    Diag.get_test db environ = Returned r ∧
    status (Diag.get_test db environ) = 200 ∧
    (length (Diag.collections r) ≤ 10)%nat ∧
    Diag.backend r = "✅ Running" ∧
    Diag.database_url r = Some (Diag.set_or_not environ "DATABASE_URL") ∧
    Diag.database_name r = Some (Diag.set_or_not environ "DATABASE_NAME") ∧
    match db with
    | None =>
        Diag.database r = "⚠️  Available but not initialized" ∧
        Diag.connection_status r = "Not Connected" ∧ Diag.collections r = []
    | Some h =>
        match Diag.name h, Diag.list_collection_names h with
        | Diag.AttrRaises e, _ =>
            Diag.database r = "❌ Error: " ++ Diag.str50 e ∧
            first_chars 50 (Diag.message e) (Diag.str50 e) ∧
            (Py.len (Diag.str50 e) ≤ 50)%nat ∧
            Diag.connection_status r = "Not Connected" ∧ Diag.collections r = []
        | _, inl e =>
            Diag.database r = "⚠️  Connected but Error: " ++ Diag.str50 e ∧
            first_chars 50 (Diag.message e) (Diag.str50 e) ∧
            (Py.len (Diag.str50 e) ≤ 50)%nat ∧
            Diag.connection_status r = "Connected" ∧ Diag.collections r = []
        | _, inr names =>
            Diag.database r = "✅ Connected & Working" ∧
            Diag.connection_status r = "Connected" ∧
            Diag.collections r = take 10 names
        end
    end.
Proof.
  destruct db as [[nm lst]|]; cbn [Diag.name Diag.list_collection_names].
  - destruct nm as [|a|e].
    + destruct lst as [e'|names];
        [rewrite get_test_listing_raises by done|rewrite get_test_working by done];
        (eexists; split; [reflexivity|]); unfold diag_response;
        cbn [Diag.collections Diag.database Diag.database_url Diag.database_name
             Diag.connection_status Diag.backend status length];
        split_and!;
          first [ done | apply slice_to_first_chars | apply str50_short
                | rewrite length_take; lia | lia ].
    + destruct lst as [e'|names];
        [rewrite get_test_listing_raises by done|rewrite get_test_working by done];
        (eexists; split; [reflexivity|]); unfold diag_response;
        cbn [Diag.collections Diag.database Diag.database_url Diag.database_name
             Diag.connection_status Diag.backend status length];
        split_and!;
          first [ done | apply slice_to_first_chars | apply str50_short
                | rewrite length_take; lia | lia ].
    + rewrite get_test_name_raises.
      eexists; split; [reflexivity|]. unfold diag_response.
      cbn [Diag.collections Diag.database Diag.database_url Diag.database_name
           Diag.connection_status Diag.backend status length].
      split_and!;
        first [ done | apply slice_to_first_chars | apply str50_short | lia ].
  - rewrite get_test_no_handle.
    eexists; split; [reflexivity|]. unfold diag_response.
    cbn [Diag.collections Diag.database Diag.database_url Diag.database_name
         Diag.connection_status Diag.backend status length].
    split_and!; first [ done | lia ].
Qed.

(** * Further properties *)

(** ** [GET /songs]: ties, and keys that are not timestamps *)

Lemma fields_ltb_irrefl a : Py.fields_ltb a a = false.
Proof.
  destruct (Py.fields_ltb a a) eqn:H; [|done].
  by rewrite (fields_ltb_asym _ _ H) in H.
Qed.

Lemma filter_none {B} (P : B → Prop) `{!∀ x, Decision (P x)} (l : list B) :
  (∀ z, z ∈ l → ¬ P z) → filter P l = [].
Proof.
  induction l as [|x l IH]; intros Hl; [done|].
  rewrite filter_cons_False by (apply Hl; left).
  apply IH. intros z Hz. apply Hl. by right.
Qed.

Lemma rev_reverse {B} (l : list B) : List.rev l = reverse l.
Proof. apply rev_alt. Qed.

Section SortMore.
Context {A : Type}.
Implicit Types (p q o : Py.value * A) (run rest out l : list (Py.value * A)).

(** An insertion leaves the items of each key in their order and puts
    the new item behind the ones it ties with. *)
Lemma insert_keyed_stable p run run' k :
  dated p → Forall dated run → StronglySorted ascending run →
  PyList.insert_keyed p run = Some run' →
  filter (keyed_at k) run' = (filter (keyed_at k) run ++ filter (keyed_at k) [p])%list.
Proof.
  intros [tp Hp] Hrun Hs. revert run'.
  induction run as [|q run IH]; intros run'; simpl.
  - by intros [= <-].
  - apply Forall_cons in Hrun as [[tq Hq] Hrun].
    apply StronglySorted_cons in Hs as [Hq_le Hs].
    rewrite Hp, Hq; simpl.
    destruct (Py.datetime_ltb tp tq) eqn:Hlt; simpl.
    + intros [= <-].
      rewrite (filter_cons _ p), (filter_cons _ p []), filter_nil.
      destruct (decide (keyed_at k p)) as [Hk|Hk]; [|by rewrite app_nil_r].
      assert (filter (keyed_at k) (q :: run) = []) as ->; [|done].
      apply filter_none. intros z Hz Hzk. unfold keyed_at in *.
      rewrite Hp in Hk. subst k.
      apply elem_of_cons in Hz as [->|Hz].
      * rewrite Hq in Hzk. injection Hzk as ->.
        unfold Py.datetime_ltb in Hlt. by rewrite fields_ltb_irrefl in Hlt.
      * rewrite Forall_forall in Hq_le. specialize (Hq_le z Hz).
        unfold ascending in Hq_le. rewrite Hzk, Hq in Hq_le. simpl in Hq_le.
        congruence.
    + destruct (PyList.insert_keyed p run) as [run''|] eqn:Hins; simpl; [|done].
      intros [= <-]. rewrite !(filter_cons _ q), (IH Hrun Hs run'') by done.
      by destruct (decide (keyed_at k q)).
Qed.

Lemma sort_keyed_stable run rest out k :
  Forall dated run → Forall dated rest → StronglySorted ascending run →
  PyList.sort_keyed run rest = Some out →
  filter (keyed_at k) out
  = (filter (keyed_at k) run ++ filter (keyed_at k) rest)%list.
Proof.
  revert run. induction rest as [|p rest IH]; intros run Hrun Hrest Hs; simpl.
  - intros [= <-]. by rewrite app_nil_r.
  - apply Forall_cons in Hrest as [Hp Hrest].
    destruct (insert_keyed_sorted p run Hp Hrun Hs) as (run' & Hins & Hperm & Hs').
    rewrite Hins. simpl. intros Hout.
    rewrite (IH run') by (done || by rewrite Hperm; apply Forall_cons).
    rewrite (insert_keyed_stable _ _ _ k Hp Hrun Hs Hins).
    rewrite (filter_cons _ p rest), (filter_cons _ p []), filter_nil.
    rewrite <-app_assoc. by destruct (decide (keyed_at k p)).
Qed.

(** [l.sort(key=key, reverse=True)] is stable on datetime keys: the
    elements that share a key come out in the order they went in. *)
Lemma sort_reverse_stable (key : A → Py.value) (l out : list A) (k : Py.value) :
  Forall (λ x, ∃ t, key x = Py.VDatetime t) l →
  PyList.sort key true l = Some out →
  filter (λ x, key x = k) out = filter (λ x, key x = k) l.
Proof.
  intros Hl. unfold PyList.sort.
  set (keyed := (λ x, (key x, x)) <$> l).
  assert (Hk : Forall dated keyed).
  { subst keyed. apply Forall_fmap. eapply Forall_impl; [exact Hl|].
    intros x [t Ht]. by exists t. }
  destruct (PyList.sort_keyed [] (List.rev keyed)) as [sorted|] eqn:Hs; simpl; [|done].
  intros [= <-].
  pose proof (sort_keyed_perm _ _ _ Hs) as Hperm. simpl in Hperm.
  apply (sort_keyed_stable _ _ _ k) in Hs; [|constructor|by apply Forall_rev'|constructor].
  simpl in Hs. rewrite !rev_reverse in *. rewrite filter_reverse in Hs.
  assert (∀ ps : list (Py.value * A), Forall (λ p, p.1 = key p.2) ps →
            filter (λ x, key x = k) (snd <$> ps) = snd <$> filter (keyed_at k) ps) as Hsnd.
  { induction 1 as [|p ps Hp _ IHps]; [done|]. rewrite fmap_cons, !filter_cons.
    destruct (decide (key p.2 = k)), (decide (keyed_at k p));
      unfold keyed_at in *; try congruence; by rewrite ?fmap_cons, IHps. }
  assert (Forall (λ p, p.1 = key p.2) keyed) as Hkeyed.
  { subst keyed. apply Forall_fmap. by apply Forall_true. }
  assert (l = snd <$> keyed) as Hl'.
  { subst keyed. rewrite <-list_fmap_compose. by rewrite list_fmap_id. }
  rewrite (Hsnd (reverse sorted)).
  - rewrite filter_reverse, Hs, reverse_involutive, <-(Hsnd keyed Hkeyed).
    by rewrite <-Hl'.
  - apply Forall_reverse. rewrite Hperm. by apply Forall_reverse.
Qed.

Lemma lt_undated_l p q : undated p → dated q → Py.lt p.1 q.1 = None.
Proof.
  intros Hp [t Hq]. rewrite Hq. destruct p.1 eqn:E; try done. by destruct (Hp d).
Qed.

Lemma lt_undated_r p q : dated p → undated q → Py.lt p.1 q.1 = None.
Proof.
  intros [t Hp] Hq. rewrite Hp. destruct q.1 eqn:E; try done. by destruct (Hq d).
Qed.

Lemma sort_keyed_raises run (l1 l2 : list (Py.value * A)) o :
  run ≠ [] → Forall dated run → Forall dated l1 → undated o →
  PyList.sort_keyed run (l1 ++ o :: l2) = None.
Proof.
  revert run. induction l1 as [|p l1 IH]; intros run Hne Hrun Hl1 Ho; simpl.
  - destruct run as [|q run]; [done|]. apply Forall_cons in Hrun as [Hq _].
    simpl. by rewrite (lt_undated_l o q).
  - apply Forall_cons in Hl1 as [Hp Hl1].
    destruct (PyList.insert_keyed p run) as [run'|] eqn:Hins; simpl; [|done].
    pose proof (insert_keyed_perm _ _ _ Hins) as Hperm.
    apply IH; [|by rewrite Hperm; apply Forall_cons|done..].
    intros ->. by apply Permutation_nil_cons in Hperm.
Qed.

Lemma sort_keyed_raises_from_empty (l1 l2 : list (Py.value * A)) o :
  (l1 ++ l2)%list ≠ [] → Forall dated l1 → Forall dated l2 → undated o →
  PyList.sort_keyed [] (l1 ++ o :: l2) = None.
Proof.
  intros Hne Hl1 Hl2 Ho. destruct l1 as [|p l1]; simpl.
  - destruct l2 as [|q l2]; [done|]. apply Forall_cons in Hl2 as [Hq _].
    simpl. by rewrite (lt_undated_r q o).
  - apply Forall_cons in Hl1 as [Hp Hl1].
    apply (sort_keyed_raises [p]); [done|by constructor|done..].
Qed.

(** [l.sort(key=key, reverse=True)] raises as soon as one key among two
    or more is not a datetime while the others are. *)
Lemma sort_reverse_raises (key : A → Py.value) (l1 l2 : list A) (o : A) :
  (l1 ++ l2)%list ≠ [] →
  Forall (λ x, ∃ t, key x = Py.VDatetime t) (l1 ++ l2) →
  (∀ t, key o ≠ Py.VDatetime t) →
  PyList.sort key true (l1 ++ o :: l2) = None.
Proof.
  intros Hne Hl Ho. unfold PyList.sort.
  rewrite fmap_app, fmap_cons, rev_app_distr. simpl. rewrite <-app_assoc. simpl.
  apply Forall_app in Hl as [Hl1 Hl2].
  rewrite sort_keyed_raises_from_empty; [done| | | |done].
  - intros [H1 H2]%app_eq_nil. apply Hne.
    apply (f_equal (@List.rev _)) in H1, H2. rewrite rev_involutive in H1, H2. simpl in *.
    apply fmap_nil_inv in H1, H2. by subst.
  - apply Forall_rev', Forall_fmap. eapply Forall_impl; [exact Hl2|].
    intros x [t Ht]. by exists t.
  - apply Forall_rev', Forall_fmap. eapply Forall_impl; [exact Hl1|].
    intros x [t Ht]. by exists t.
Qed.
End SortMore.

Lemma filter_created_key_project (k : Py.value) (docs : list doc) :
  filter (λ r, created_key r = k) (project_id <$> docs)
  = project_id <$> filter (λ d, created_key d = k) docs.
Proof.
  induction docs as [|d docs IH]; [done|].
  rewrite fmap_cons, !filter_cons, IH, created_key_project.
  by destruct (decide (created_key d = k)).
Qed.

(** X1. Records with the same [created_at] keep the order in which the
    store returned their documents: for every key, the records of
    [GET /songs] that have it are the projected documents that have it,
    in store order. *)
Theorem list_songs_ties_in_store_order (w : world) :
  Forall (λ d, timestamped d = true) (get_documents "song" w) →
  ∃ out,
    list_songs w = Returned out ∧
    ∀ k, filter (λ r, created_key r = k) out
         = project_id <$> filter (λ d, created_key d = k) (get_documents "song" w).
Proof.
  intros Hdocs. destruct (list_songs_of_sorted _ Hdocs) as (out & Hout & _).
  exists out. split; [exact Hout|]. intros k.
  unfold list_songs, list_songs_of in Hout. rewrite project_loop in Hout.
  destruct (PyList.sort _ _ _) as [out'|] eqn:Hs; [|done].
  injection Hout as ->.
  rewrite <-filter_created_key_project.
  apply (sort_reverse_stable created_key _ _ k); [|done].
  apply Forall_fmap. eapply Forall_impl; [exact Hdocs|].
  intros d [t [Ht _]]%timestamped_key. simpl. exists t.
  by rewrite created_key_project.
Qed.

Lemma list_songs_ties_in_store_order_witness :
  ∃ out,
    list_songs (with_songs [song_x; song_y; song_x_twin]) = Returned out ∧
    ∀ k, filter (λ r, created_key r = k) out
         = project_id <$> filter (λ d, created_key d = k)
             (get_documents "song" (with_songs [song_x; song_y; song_x_twin])).
Proof.
  apply (list_songs_ties_in_store_order (with_songs [song_x; song_y; song_x_twin])).
  repeat constructor.
Defined.

Example list_songs_ties_sample :
  list_songs (with_songs [song_x; song_y; song_x_twin])
  = Returned [project_id song_y; project_id song_x; project_id song_x_twin].
Proof. reflexivity. Qed.

Lemma misdated_key (d : doc) :
  misdated d = true → ∀ t, created_key (project_id d) ≠ Py.VDatetime t.
Proof.
  rewrite created_key_project. unfold misdated, created_key, Dict.get.
  destruct (d !! "created_at") as [[]|]; simpl; done.
Qed.

(** X2. One document whose [created_at] is not a datetime, among
    documents that are timestamped, stops the whole listing: with a
    second document in the store the sort raises [TypeError] and
    [GET /songs] answers 500. *)
Theorem list_songs_misdated_raises (w : world) (l1 l2 : list doc) (d : doc) :
  get_documents "song" w = (l1 ++ d :: l2)%list →
  misdated d = true →
  Forall (λ d, timestamped d = true) (l1 ++ l2) →
  (l1 ++ l2)%list ≠ [] →
  list_songs w = Unhandled "TypeError" ∧ status (list_songs w) = 500.
Proof.
  intros Hdocs Hd Hrest Hne.
  assert (list_songs w = Unhandled "TypeError") as ->; [|done].
  unfold list_songs, list_songs_of. rewrite Hdocs, project_loop.
  rewrite fmap_app, fmap_cons.
  rewrite sort_reverse_raises; [done| | |by apply misdated_key].
  - rewrite <-fmap_app. intros H%fmap_nil_inv. done.
  - rewrite <-fmap_app. apply Forall_fmap. eapply Forall_impl; [exact Hrest|].
    intros x [t [Ht _]]%timestamped_key. simpl. exists t.
    by rewrite created_key_project.
Qed.

Lemma list_songs_misdated_raises_witness :
  list_songs (with_songs [song_x; song_text_date; song_bare])
  = Unhandled "TypeError" ∧
  status (list_songs (with_songs [song_x; song_text_date; song_bare])) = 500.
Proof.
  apply (list_songs_misdated_raises (with_songs [song_x; song_text_date; song_bare])
           [song_x] [song_bare] song_text_date).
  - reflexivity.
  - reflexivity.
  - repeat constructor.
  - discriminate.
Defined.

(** X3. With one document or none nothing is compared, so [GET /songs]
    returns whatever [created_at] holds. *)
Theorem list_songs_at_most_one (w : world) :
  (length (get_documents "song" w) ≤ 1)%nat →
  list_songs w = Returned (project_id <$> get_documents "song" w).
Proof.
  unfold list_songs, list_songs_of. rewrite project_loop.
  destruct (get_documents "song" w) as [|d [|d' docs]]; simpl; [done..|lia].
Qed.

Lemma list_songs_at_most_one_witness :
  list_songs (with_songs [song_text_date])
  = Returned (project_id <$> get_documents "song" (with_songs [song_text_date])).
Proof.
  apply (list_songs_at_most_one (with_songs [song_text_date])). vm_compute. lia.
Defined.

(** ** [POST /songs]: the statuses, and the round trip *)

(** X4. The three answers of [POST /songs] to a body whose fields,
    where present, have the declared types, while the store takes the
    document: 422 when [title] or [artist] is missing, whatever
    [audioUrl] is; otherwise 400 when [audioUrl] is missing or empty;
    otherwise 200.  Only the 200 changes the world, by one document in
    ["song"].  (A field of another type is refused by the validation,
    and a store that fails raises: neither is a body or a store of this
    model.) *)
Theorem post_songs_status (b : SongCreate.body) (w : world) :
  status (post_songs b w).1
  = match SongCreate.b_title b, SongCreate.b_artist b with
    | Some _, Some _ =>
        if Py.truthy (opt_str (SongCreate.b_audioUrl b)) then 200 else 400
    | _, _ => 422
    end ∧
  (status (post_songs b w).1 ≠ 200 → (post_songs b w).2 = w) ∧
  (status (post_songs b w).1 = 200 →
   length (get_documents "song" (post_songs b w).2)
   = S (length (get_documents "song" w))).
Proof.
  unfold post_songs, SongCreate.validate.
  destruct (SongCreate.b_title b) as [t|], (SongCreate.b_artist b) as [a|];
    cbn [mbind option_bind]; try by split_and!.
  unfold create_song. cbn [SongCreate.audioUrl].
  destruct (Py.truthy (opt_str (SongCreate.b_audioUrl b))); cbn [negb];
    [|by split_and!].
  match goal with
  | |- context [create_document "song" ?s w] =>
      destruct (create_document_appends "song" s w) as (_ & Hdocs & _ & _);
      destruct (create_document "song" s w) as [new_id w']
  end.
  cbn [fst snd status] in *. split_and!; [done|done|].
  intros _. rewrite Hdocs, length_app. simpl. lia.
Qed.

Example post_songs_status_sample :
  status (post_songs (SongCreate.mk_body None (Some "B") None None None None)
                     sample_world).1 = 422 ∧
  status (post_songs (SongCreate.mk_body (Some "A") (Some "B") None None (Some "") None)
                     sample_world).1 = 400 ∧
  status (post_songs (SongCreate.mk_body (Some "A") (Some "B") None None (Some " ") None)
                     sample_world).1 = 200.
Proof. split_and!; reflexivity. Qed.

Lemma stored_timestamped `{BaseModel A} (data : A) (w : world) :
  Py.datetime_ok (utc_clock w (clock_reads w)) = true →
  timestamped (stored data w) = true.
Proof. intros Hok. unfold timestamped, stored. by rewrite lookup_insert_eq. Qed.

Lemma create_document_world `{BaseModel A} (c : string) (data : A) (w : world) :
  utc_clock (create_document c data w).2 = utc_clock w ∧
  utcoffset (create_document c data w).2 = utcoffset w ∧
  cwd (create_document c data w).2 = cwd w ∧
  writable (create_document c data w).2 = writable w ∧
  clock_reads (create_document c data w).2 = S (clock_reads w) ∧
  next_oid (create_document c data w).2 = (next_oid w + 1)%N.
Proof. done. Qed.

(** X5. A song accepted by [POST /songs] is listed by the next
    [GET /songs]: one record more than before, among them the record
    with the [id] that was returned, no [_id], and the [title], [artist]
    and [audioUrl] of the request. *)
Theorem create_song_then_list_songs (song : SongCreate.t) (w : world) (url : string) :
  SongCreate.audioUrl song = Some url → url ≠ "" →
  listable w → Py.datetime_ok (utc_clock w (clock_reads w)) = true →
  ∃ new_id w' out r,
    create_song song w = (Returned {[ "id" := Py.VStr new_id ]}, w') ∧
    list_songs w' = Returned out ∧
    length out = S (length (get_documents "song" w)) ∧
    r ∈ out ∧
    r !! "id" = Some (Py.VStr new_id) ∧
    r !! "_id" = None ∧
    r !! "title" = Some (Py.VStr (SongCreate.title song)) ∧
    r !! "artist" = Some (Py.VStr (SongCreate.artist song)) ∧
    r !! "audioUrl" = Some (Py.VStr url).
Proof.
  intros Hu Hne Hw Hclock.
  rewrite (create_song_accepts song w url Hu Hne).
  destruct (create_document_appends "song" song w) as (Hid & Hdocs & _ & _).
  assert (listable (create_document "song" song w).2) as Hw'.
  { unfold listable. rewrite Hdocs. apply Forall_app. split; [done|].
    repeat constructor. by apply stored_timestamped. }
  destruct (list_songs_of_sorted _ Hw') as (out & Hout & Hperm & _).
  eexists _, _, out, (project_id (stored song w)). split_and!.
  - reflexivity.
  - exact Hout.
  - rewrite Hperm, length_fmap, Hdocs, length_app. simpl. lia.
  - rewrite Hperm, Hdocs. apply list_elem_of_fmap_2, elem_of_app. right. by left.
  - rewrite project_id_id, stored_id, Hid. reflexivity.
  - apply project_id_no_native.
  - rewrite project_id_other, stored_fields by done. reflexivity.
  - rewrite project_id_other, stored_fields by done. reflexivity.
  - rewrite project_id_other, stored_fields by done.
    unfold model_dump, SongCreate_model, song_fields. rewrite Hu. reflexivity.
Qed.

Lemma create_song_then_list_songs_witness :
  ∃ new_id w' out r,
    create_song song_ab_url sample_world
    = (Returned {[ "id" := Py.VStr new_id ]}, w') ∧
    list_songs w' = Returned out ∧
    length out = S (length (get_documents "song" sample_world)) ∧
    r ∈ out ∧
    r !! "id" = Some (Py.VStr new_id) ∧
    r !! "_id" = None ∧
    r !! "title" = Some (Py.VStr (SongCreate.title song_ab_url)) ∧
    r !! "artist" = Some (Py.VStr (SongCreate.artist song_ab_url)) ∧
    r !! "audioUrl" = Some (Py.VStr "http://x/y.mp3").
Proof.
  apply (create_song_then_list_songs song_ab_url sample_world "http://x/y.mp3").
  - reflexivity.
  - discriminate.
  - constructor.
  - reflexivity.
Defined.

(** ** [POST /songs/upload]: what is written, and where *)

Lemma upload_song_run title artist album audio cover w :
  can_store audio cover w = true →
  ∃ w',
    upload_song title artist album audio cover w
    = (Returned (upload_body (Py.str (ObjectId (next_oid w))) audio cover w), w') ∧
    get_documents "song" w'
    = (get_documents "song" w ++ [upload_doc title artist album audio cover w])%list ∧
    (∀ c, c ≠ "song" → get_documents c w' = get_documents c w) ∧
    files w' = upload_files audio cover w ∧
    writable w' = writable w ∧ cwd w' = cwd w ∧ utcoffset w' = utcoffset w ∧
    utc_clock w' = utc_clock w ∧
    clock_reads w' = (match cover with Some _ => 3 | None => 2 end + clock_reads w)%nat.
Proof.
  unfold can_store, upload_body, upload_doc, upload_files, upload_stamp,
    audio_path, cover_path, audio_name, cover_name.
  unfold upload_song, save_cover. rewrite !utcnow_eq.
  cbv beta iota zeta. unfold write_file, Song.new, utcnow.
  unfold AUDIO_DIR, COVER_DIR, UPLOAD_DIR.
  cbn [cwd utcoffset writable utc_clock clock_reads from_option].
  destruct (writable w _) eqn:Ha; cbn [andb];
    cbn [cwd utcoffset writable utc_clock clock_reads store next_oid files];
    [|done].
  destruct cover as [c|]; cbn [from_option fmap option_fmap option_map].
  - intros Hc. rewrite Hc.
    cbn [cwd utcoffset writable utc_clock clock_reads store next_oid files].
    eexists. split; [reflexivity|].
    unfold create_document, get_documents, utcnow.
    cbn [cwd utcoffset writable utc_clock clock_reads store next_oid files fst snd].
    split_and!; try reflexivity.
    + by rewrite lookup_insert_eq.
    + intros c' Hc'. by rewrite lookup_insert_ne.
  - intros _. eexists. split; [reflexivity|].
    unfold create_document, get_documents, utcnow.
    cbn [cwd utcoffset writable utc_clock clock_reads store next_oid files fst snd].
    split_and!; try reflexivity.
    + by rewrite lookup_insert_eq.
    + intros c' Hc'. by rewrite lookup_insert_ne.
Qed.

Lemma upload_song_fails title artist album audio cover w :
  can_store audio cover w = false →
  ∃ w',
    upload_song title artist album audio cover w = (Unhandled "OSError", w') ∧
    store w' = store w ∧ next_oid w' = next_oid w ∧ utc_clock w' = utc_clock w ∧
    files w' = (if writable w (audio_path audio w)
                then <[audio_path audio w := content audio]> (files w)
                else files w).
Proof.
  unfold can_store, audio_path, cover_path, audio_name, cover_name.
  unfold upload_song, save_cover. rewrite !utcnow_eq.
  cbv beta iota zeta. unfold write_file, Song.new, utcnow.
  unfold AUDIO_DIR, COVER_DIR, UPLOAD_DIR.
  cbn [cwd utcoffset writable utc_clock clock_reads from_option].
  destruct (writable w _) eqn:Ha; cbn [andb];
    cbn [cwd utcoffset writable utc_clock clock_reads store next_oid files];
    [|by eexists].
  destruct cover as [c|]; cbn [from_option]; [|done].
  intros Hc. rewrite Hc. by eexists.
Qed.

Lemma string_app_assoc (s t u : string) : (s ++ t) ++ u = s ++ t ++ u.
Proof.
  induction s as [|c s IH]; [done|].
  change (String c ((s ++ t) ++ u) = String c (s ++ t ++ u)). by rewrite IH.
Qed.

Lemma string_app_length (s t : string) :
  String.length (s ++ t) = (String.length s + String.length t)%nat.
Proof.
  induction s as [|c s IH]; [done|].
  change (S (String.length (s ++ t)) = S (String.length s + String.length t)).
  by rewrite IH.
Qed.

Lemma all_chars_app (P : ascii → Prop) (s t : string) :
  all_chars P (s ++ t) ↔ all_chars P s ∧ all_chars P t.
Proof.
  induction s as [|c s IH]; [simpl; tauto|].
  change (P c ∧ all_chars P (s ++ t) ↔ (P c ∧ all_chars P s) ∧ all_chars P t).
  tauto.
Qed.

Lemma pretty_N_go_all (P : ascii → Prop) x s :
  (∀ d, P (pretty_N_char d)) → all_chars P s → all_chars P (pretty_N_go x s).
Proof.
  intros HP. revert s. induction (N.lt_wf_0 x) as [x _ IH]; intros s Hs.
  assert (x = 0 ∨ 0 < x)%N as [->|?] by lia.
  - by rewrite pretty_N_go_0.
  - rewrite pretty_N_go_step by done. apply IH.
    { by apply N.div_lt. }
    split; [apply HP|done].
Qed.

(** The decimal form of an integer is made of digits and, in front, the
    minus sign. *)
Lemma pretty_Z_all (P : ascii → Prop) (z : Z) :
  (∀ d, P (pretty_N_char d)) → P "-"%char → all_chars P (pretty z).
Proof.
  intros HP Hminus.
  assert (∀ n : N, all_chars P (pretty n)) as HN.
  { intros n. unfold pretty, pretty_N. case_decide.
    - split; [apply (HP 0%N)|done].
    - by apply pretty_N_go_all. }
  destruct z as [|p|p]; unfold pretty, pretty_Z.
  - split; [apply (HP 0%N)|done].
  - apply HN.
  - change (all_chars P (String "-" (pretty (Npos p)))). split; [done|apply HN].
Qed.

Lemma pretty_Z_plain (z : Z) : all_chars plain (pretty z).
Proof.
  apply pretty_Z_all; [|by split].
  intros d. unfold pretty_N_char. repeat case_match; by split.
Qed.

Lemma pretty_Z_no_space (z : Z) : all_chars not_space (pretty z).
Proof.
  apply pretty_Z_all; [|done].
  intros d. unfold pretty_N_char. by repeat case_match.
Qed.


Lemma plain_prefix_relative (s r t : string) :
  all_chars plain s → s ++ "_" ++ r ≠ String "/" t.
Proof. destruct s as [|c s]; [done|]. intros [[_ Hc] _] [= -> _]. done. Qed.


Lemma safe_name_relative o t n u : safe_name o t n ≠ String "/" u.
Proof. apply plain_prefix_relative, pretty_Z_plain. Qed.

Lemma path_join_relative (a b : string) :
  (∀ t, b ≠ String "/" t) → path_join a b = dir_sep a ++ b.
Proof.
  intros Hb. unfold path_join, dir_sep.
  assert (match b with
          | String "/" _ => b
          | _ => if String.eqb a "" || String.eqb (substring (String.length a - 1) 1 a) "/"
                 then a ++ b else a ++ "/" ++ b
          end
          = if String.eqb a "" || String.eqb (substring (String.length a - 1) 1 a) "/"
            then a ++ b else a ++ "/" ++ b) as ->.
  { destruct b as [|c b]; [done|].
    destruct (Ascii.eqb_spec c "/") as [->|Hc]; [by destruct (Hb b)|].
    destruct c as [[] [] [] [] [] [] [] []]; done. }
  destruct (_ || _); [done|]. by rewrite string_app_assoc.
Qed.

Lemma substring_last (s : string) (c : ascii) :
  substring (String.length s) 1 (s ++ String c "") = String c "".
Proof. induction s as [|a s IH]; [done|]. exact IH. Qed.

Lemma dir_sep_after (s : string) (c : ascii) :
  c ≠ "/"%char → dir_sep (s ++ String c "") = s ++ String c "/".
Proof.
  intros Hc. unfold dir_sep.
  rewrite string_app_length. simpl String.length.
  replace (String.length s + 1 - 1)%nat with (String.length s) by lia.
  rewrite substring_last.
  assert (String.eqb (s ++ String c "") "" = false) as ->.
  { by destruct s. }
  assert (String.eqb (String c "") "/" = false) as ->.
  { apply String.eqb_neq. by intros [= ->]. }
  simpl. by rewrite string_app_assoc.
Qed.

(** Where [os.path.join(AUDIO_DIR, n)] and [os.path.join(COVER_DIR, n)]
    lead for a relative name [n]. *)
Lemma audio_dir_join (w : world) (n : string) :
  (∀ t, n ≠ String "/" t) →
  path_join (AUDIO_DIR w) n = dir_sep (cwd w) ++ "uploads/audio/" ++ n.
Proof.
  intros Hn. unfold AUDIO_DIR, UPLOAD_DIR.
  rewrite (path_join_relative (cwd w) "uploads") by done.
  change "uploads" with ("upload" ++ "s") at 1.
  rewrite <-(string_app_assoc (dir_sep (cwd w))).
  rewrite (path_join_relative _ "audio") by done.
  rewrite dir_sep_after by done.
  change "audio" with ("audi" ++ "o").
  rewrite <-(string_app_assoc _ "audi").
  rewrite path_join_relative by done.
  rewrite dir_sep_after by done.
  by rewrite !string_app_assoc.
Qed.

Lemma cover_dir_join (w : world) (n : string) :
  (∀ t, n ≠ String "/" t) →
  path_join (COVER_DIR w) n = dir_sep (cwd w) ++ "uploads/covers/" ++ n.
Proof.
  intros Hn. unfold COVER_DIR, UPLOAD_DIR.
  rewrite (path_join_relative (cwd w) "uploads") by done.
  change "uploads" with ("upload" ++ "s") at 1.
  rewrite <-(string_app_assoc (dir_sep (cwd w))).
  rewrite (path_join_relative _ "covers") by done.
  rewrite dir_sep_after by done.
  change "covers" with ("cover" ++ "s").
  rewrite <-(string_app_assoc _ "cover").
  rewrite path_join_relative by done.
  rewrite dir_sep_after by done.
  by rewrite !string_app_assoc.
Qed.

Lemma audio_path_eq (audio : UploadFile) (w : world) :
  audio_path audio w = dir_sep (cwd w) ++ "uploads/audio/" ++ audio_name audio w.
Proof. apply audio_dir_join, safe_name_relative. Qed.

Lemma cover_path_eq (c : UploadFile) (w : world) :
  cover_path c w = dir_sep (cwd w) ++ "uploads/covers/" ++ cover_name c w.
Proof. apply cover_dir_join, safe_name_relative. Qed.

Lemma audio_cover_paths_differ (audio c : UploadFile) (w : world) :
  audio_path audio w ≠ cover_path c w.
Proof.
  rewrite audio_path_eq, cover_path_eq. intros H.
  apply (inj (String.app _)) in H.
  revert H. generalize (audio_name audio w) (cover_name c w). discriminate.
Qed.

(** X6. An upload that returns has written both files where its URLs
    point: [audioUrl] is ["/media/audio/"] and the derived name, the
    audio bytes are in the file of that name under [uploads/audio/] of
    the working directory, and likewise the cover under
    [uploads/covers/]; the two paths never coincide and no other file is
    touched. *)
Theorem upload_song_stores_bytes title artist album audio cover w :
  can_store audio cover w = true →
  ∃ body w',
    upload_song title artist album audio cover w = (Returned body, w') ∧
    body !! "audioUrl" = Some (Py.VStr ("/media/audio/" ++ audio_name audio w)) ∧
    audio_path audio w = dir_sep (cwd w) ++ "uploads/audio/" ++ audio_name audio w ∧
    files w' !! audio_path audio w = Some (content audio) ∧
    (∀ c, cover = Some c →
      body !! "coverUrl" = Some (Py.VStr ("/media/covers/" ++ cover_name c w)) ∧
      cover_path c w = dir_sep (cwd w) ++ "uploads/covers/" ++ cover_name c w ∧
      files w' !! cover_path c w = Some (content c)) ∧
    (∀ p, p ≠ audio_path audio w → (∀ c, cover = Some c → p ≠ cover_path c w) →
          files w' !! p = files w !! p).
Proof.
  intros Hok.
  destruct (upload_song_run title artist album audio cover w Hok)
    as (w' & Hrun & _ & _ & Hfiles & _).
  eexists _, w'. split; [exact Hrun|]. rewrite Hfiles.
  unfold upload_files, upload_body. split_and!.
  - reflexivity.
  - apply audio_path_eq.
  - destruct cover as [c|]; [|apply lookup_insert_eq].
    rewrite lookup_insert_ne by (apply not_eq_sym, audio_cover_paths_differ).
    apply lookup_insert_eq.
  - intros c ->. split_and!.
    + reflexivity.
    + apply cover_path_eq.
    + apply lookup_insert_eq.
  - intros p Hp Hc. destruct cover as [c|].
    + rewrite lookup_insert_ne by (apply not_eq_sym; by apply Hc).
      by rewrite lookup_insert_ne.
    + by rewrite lookup_insert_ne.
Qed.

Lemma upload_song_stores_bytes_witness :
  ∃ body w',
    upload_song "A" "B" None upload_ab (Some upload_cover) sample_world
    = (Returned body, w') ∧
    body !! "audioUrl"
    = Some (Py.VStr ("/media/audio/" ++ audio_name upload_ab sample_world)) ∧
    audio_path upload_ab sample_world
    = dir_sep (cwd sample_world) ++ "uploads/audio/" ++ audio_name upload_ab sample_world ∧
    files w' !! audio_path upload_ab sample_world = Some (content upload_ab) ∧
    (∀ c, Some upload_cover = Some c →
      body !! "coverUrl" = Some (Py.VStr ("/media/covers/" ++ cover_name c sample_world)) ∧
      cover_path c sample_world
      = dir_sep (cwd sample_world) ++ "uploads/covers/" ++ cover_name c sample_world ∧
      files w' !! cover_path c sample_world = Some (content c)) ∧
    (∀ p, p ≠ audio_path upload_ab sample_world →
          (∀ c, Some upload_cover = Some c → p ≠ cover_path c sample_world) →
          files w' !! p = files sample_world !! p).
Proof.
  apply (upload_song_stores_bytes "A" "B" None upload_ab (Some upload_cover) sample_world).
  reflexivity.
Defined.

Example upload_song_files_sample :
  files (upload_song "A" "B" None upload_ab (Some upload_cover) sample_world).2
  = {[ "/app/uploads/audio/1700000000_a_b.mp3" := content upload_ab;
       "/app/uploads/covers/1700000001_my_cover.png" := content upload_cover ]}.
Proof. reflexivity. Qed.

(** X7. When a file cannot be written the upload answers 500, stores no
    document and draws no identifier; if it is the cover that fails, the
    audio file has been written already and stays. *)
Theorem upload_song_failed_write title artist album audio cover w :
  can_store audio cover w = false →
  ∃ w',
    upload_song title artist album audio cover w = (Unhandled "OSError", w') ∧
    status (upload_song title artist album audio cover w).1 = 500 ∧
    (∀ c, get_documents c w' = get_documents c w) ∧
    next_oid w' = next_oid w ∧
    files w' = (if writable w (audio_path audio w)
                then <[audio_path audio w := content audio]> (files w)
                else files w).
Proof.
  intros Hok.
  destruct (upload_song_fails title artist album audio cover w Hok)
    as (w' & Hrun & Hstore & Hoid & _ & Hfiles).
  exists w'. rewrite Hrun. split_and!; [done..| |done|done].
  intros c. unfold get_documents. by rewrite Hstore.
Qed.

Lemma upload_song_failed_write_witness :
  ∃ w',
    upload_song "A" "B" None upload_ab (Some upload_cover) no_covers_world
    = (Unhandled "OSError", w') ∧
    status (upload_song "A" "B" None upload_ab (Some upload_cover) no_covers_world).1
    = 500 ∧
    (∀ c, get_documents c w' = get_documents c no_covers_world) ∧
    next_oid w' = next_oid no_covers_world ∧
    files w' = (if writable no_covers_world (audio_path upload_ab no_covers_world)
                then <[audio_path upload_ab no_covers_world := content upload_ab]>
                       (files no_covers_world)
                else files no_covers_world).
Proof.
  apply (upload_song_failed_write "A" "B" None upload_ab (Some upload_cover)
           no_covers_world).
  reflexivity.
Defined.

Example upload_song_orphan_audio :
  files (upload_song "A" "B" None upload_ab (Some upload_cover) no_covers_world).2
  = {[ "/app/uploads/audio/1700000000_a_b.mp3" := content upload_ab ]} ∧
  get_documents "song"
    (upload_song "A" "B" None upload_ab (Some upload_cover) no_covers_world).2 = [].
Proof. split; reflexivity. Qed.


Example safe_name_collision_sample :
  safe_name 0 (steady_clock 0) "a b.mp3" = safe_name 0 (steady_clock 2) "a_b.mp3" ∧
  safe_name 0 (sample_clock 0) "a b.mp3" ≠ safe_name 0 (sample_clock 1) "a b.mp3".
Proof. split; [reflexivity|discriminate]. Qed.

Lemma upload_song_returned title artist album audio cover w body w' :
  upload_song title artist album audio cover w = (Returned body, w') →
  can_store audio cover w = true.
Proof.
  intros Hrun. destruct (can_store audio cover w) eqn:Hok; [done|].
  destruct (upload_song_fails title artist album audio cover w Hok)
    as (w'' & Hfail & _). by rewrite Hfail in Hrun.
Qed.

(** X9. Last write wins: when a second upload (both without a cover)
    falls in the same second as the first and its file name agrees with
    the first once spaces are underscores, both answer with the same
    [audioUrl], the file under it holds the bytes of the second upload,
    and both documents are in the store. *)
Theorem upload_same_name_overwrites
    (t1 a1 t2 a2 : string) (al1 al2 : option string) (audio1 audio2 : UploadFile)
    (w w1 : world) (body1 : doc) :
  upload_song t1 a1 al1 audio1 None w = (Returned body1, w1) →
  can_store audio2 None w1 = true →
  Clock.int (Clock.timestamp (utcoffset w) (utc_clock w (2 + clock_reads w)))
  = Clock.int (Clock.timestamp (utcoffset w) (utc_clock w (clock_reads w))) →
  replace_spaces (filename audio2) = replace_spaces (filename audio1) →
  ∃ body2 w2,
    upload_song t2 a2 al2 audio2 None w1 = (Returned body2, w2) ∧
    body2 !! "audioUrl" = body1 !! "audioUrl" ∧
    files w1 !! audio_path audio1 w = Some (content audio1) ∧
    files w2 !! audio_path audio1 w = Some (content audio2) ∧
    length (get_documents "song" w2) = (2 + length (get_documents "song" w))%nat.
Proof.
  intros Hrun1 Hok2 Hsec Hname.
  pose proof (upload_song_returned _ _ _ _ _ _ _ _ Hrun1) as Hok1.
  destruct (upload_song_run t1 a1 al1 audio1 None w Hok1)
    as (w1' & Hrun1' & Hdocs1 & _ & Hfiles1 & _ & Hcwd & Hoff & Hclk & Hreads).
  rewrite Hrun1 in Hrun1'. injection Hrun1' as -> <-.
  destruct (upload_song_run t2 a2 al2 audio2 None w1 Hok2)
    as (w2 & Hrun2 & Hdocs2 & _ & Hfiles2 & _).
  assert (audio_name audio2 w1 = audio_name audio1 w) as Hsame.
  { unfold audio_name, safe_name. by rewrite Hoff, Hclk, Hreads, Hsec, Hname. }
  assert (audio_path audio2 w1 = audio_path audio1 w) as Hpath.
  { rewrite !audio_path_eq, Hcwd, Hsame. done. }
  eexists _, w2. split_and!.
  - exact Hrun2.
  - unfold upload_body. rewrite !lookup_insert_ne by done.
    rewrite !lookup_insert_eq. by rewrite Hsame.
  - rewrite Hfiles1. apply lookup_insert_eq.
  - rewrite Hfiles2. unfold upload_files. rewrite Hpath. apply lookup_insert_eq.
  - rewrite Hdocs2, Hdocs1, !length_app. simpl. lia.
Qed.

Lemma upload_same_name_overwrites_witness :
  ∃ body2 w2,
    upload_song "C" "D" None upload_ab_underscore None
      (upload_song "A" "B" None upload_ab None steady_world).2
    = (Returned body2, w2) ∧
    body2 !! "audioUrl"
    = (upload_body "000000000000000000000001" upload_ab None steady_world) !! "audioUrl" ∧
    files (upload_song "A" "B" None upload_ab None steady_world).2
      !! audio_path upload_ab steady_world = Some (content upload_ab) ∧
    files w2 !! audio_path upload_ab steady_world = Some (content upload_ab_underscore) ∧
    length (get_documents "song" w2)
    = (2 + length (get_documents "song" steady_world))%nat.
Proof.
  apply (upload_same_name_overwrites "A" "B" "C" "D" None None
           upload_ab upload_ab_underscore steady_world).
  - reflexivity.
  - reflexivity.
  - reflexivity.
  - reflexivity.
Defined.

Lemma replace_spaces_all (s : string) : all_chars not_space (replace_spaces s).
Proof.
  induction s as [|c s IH]; simpl; [done|]. split; [|done].
  unfold not_space. destruct (Ascii.eqb_spec c " "); [done|congruence].
Qed.

Lemma replace_spaces_fixed (s : string) :
  all_chars not_space s → replace_spaces s = s.
Proof.
  induction s as [|c s IH]; simpl; [done|]. intros [Hc Hs].
  destruct (Ascii.eqb_spec c " "); [done|]. by rewrite IH.
Qed.

(** X10. The shape of a derived name: no space is left in it, a suffix
    of the file name that has no space (the extension) is still its
    suffix, and it is as long as the timestamp's digits, the underscore
    and the file name together. *)
Theorem safe_name_shape (o : Z) (t : Py.datetime) (stem ext : string) :
  all_chars not_space ext →
  all_chars not_space (safe_name o t (stem ++ ext)) ∧
  (∃ front, safe_name o t (stem ++ ext) = front ++ ext) ∧
  String.length (safe_name o t (stem ++ ext))
  = (String.length (pretty (Clock.int (Clock.timestamp o t))) + 1
     + String.length (stem ++ ext))%nat.
Proof.
  intros Hext. unfold safe_name. split_and!.
  - apply all_chars_app. split; [apply pretty_Z_no_space|].
    apply all_chars_app. split; [by split|apply replace_spaces_all].
  - exists (pretty (Clock.int (Clock.timestamp o t)) ++ "_" ++ replace_spaces stem).
    rewrite replace_spaces_app, (replace_spaces_fixed ext Hext).
    by rewrite !string_app_assoc.
  - generalize (pretty (Clock.int (Clock.timestamp o t))). intros digits.
    rewrite !string_app_length, replace_spaces_length, string_app_length.
    change (String.length "_") with 1%nat. lia.
Qed.

Lemma safe_name_shape_witness :
  all_chars not_space (safe_name 0 (sample_clock 0) ("a b" ++ ".mp3")) ∧
  (∃ front, safe_name 0 (sample_clock 0) ("a b" ++ ".mp3") = front ++ ".mp3") ∧
  String.length (safe_name 0 (sample_clock 0) ("a b" ++ ".mp3"))
  = (String.length (pretty (Clock.int (Clock.timestamp 0 (sample_clock 0)))) + 1
     + String.length ("a b" ++ ".mp3"))%nat.
Proof.
  apply (safe_name_shape 0 (sample_clock 0) "a b" ".mp3").
  repeat split; discriminate.
Defined.

Lemma upload_doc_timestamped title artist album audio cover w :
  Py.datetime_ok (upload_stamp cover w) = true →
  timestamped (upload_doc title artist album audio cover w) = true.
Proof. intros Hok. unfold timestamped, upload_doc. by rewrite lookup_insert_eq. Qed.

(** X11. An upload that returns is listed by the next [GET /songs]:
    one record more than before, among them the record with the [id],
    the [audioUrl] and the [coverUrl] of the answer and the [title] and
    [artist] of the form. *)
Theorem upload_song_then_list_songs title artist album audio cover w :
  can_store audio cover w = true →
  listable w → Py.datetime_ok (upload_stamp cover w) = true →
  ∃ new_id w' out r,
    upload_song title artist album audio cover w
    = (Returned (upload_body new_id audio cover w), w') ∧
    list_songs w' = Returned out ∧
    length out = S (length (get_documents "song" w)) ∧
    r ∈ out ∧
    r !! "id" = Some (Py.VStr new_id) ∧
    r !! "title" = Some (Py.VStr title) ∧
    r !! "artist" = Some (Py.VStr artist) ∧
    r !! "audioUrl" = upload_body new_id audio cover w !! "audioUrl" ∧
    r !! "coverUrl" = upload_body new_id audio cover w !! "coverUrl".
Proof.
  intros Hok Hw Hclock.
  destruct (upload_song_run title artist album audio cover w Hok)
    as (w' & Hrun & Hdocs & _).
  assert (listable w') as Hw'.
  { unfold listable. rewrite Hdocs. apply Forall_app. split; [done|].
    repeat constructor. by apply upload_doc_timestamped. }
  destruct (list_songs_of_sorted _ Hw') as (out & Hout & Hperm & _).
  eexists _, w', out, (project_id (upload_doc title artist album audio cover w)).
  split_and!.
  - exact Hrun.
  - exact Hout.
  - rewrite Hperm, length_fmap, Hdocs, length_app. simpl. lia.
  - rewrite Hperm, Hdocs. apply list_elem_of_fmap_2, elem_of_app. right. by left.
  - rewrite project_id_id. unfold upload_doc.
    rewrite lookup_insert_ne by done. rewrite lookup_insert_eq. reflexivity.
  - rewrite project_id_other by done. unfold upload_doc.
    rewrite !lookup_insert_ne by done. reflexivity.
  - rewrite project_id_other by done. unfold upload_doc.
    rewrite !lookup_insert_ne by done. reflexivity.
  - rewrite project_id_other by done. unfold upload_doc.
    rewrite !lookup_insert_ne by done. reflexivity.
  - rewrite project_id_other by done. unfold upload_doc.
    rewrite !lookup_insert_ne by done. reflexivity.
Qed.

Lemma upload_song_then_list_songs_witness :
  ∃ new_id w' out r,
    upload_song "A" "B" None upload_ab (Some upload_cover) sample_world
    = (Returned (upload_body new_id upload_ab (Some upload_cover) sample_world), w') ∧
    list_songs w' = Returned out ∧
    length out = S (length (get_documents "song" sample_world)) ∧
    r ∈ out ∧
    r !! "id" = Some (Py.VStr new_id) ∧
    r !! "title" = Some (Py.VStr "A") ∧
    r !! "artist" = Some (Py.VStr "B") ∧
    r !! "audioUrl"
    = upload_body new_id upload_ab (Some upload_cover) sample_world !! "audioUrl" ∧
    r !! "coverUrl"
    = upload_body new_id upload_ab (Some upload_cover) sample_world !! "coverUrl".
Proof.
  apply (upload_song_then_list_songs "A" "B" None upload_ab (Some upload_cover)
           sample_world).
  - reflexivity.
  - constructor.
  - reflexivity.
Defined.

(** ** A store filled through the service *)

Lemma after_keeps_listable (w : world) (r : request) :
  clock_ok w → listable w → clock_ok (after w r) ∧ listable (after w r).
Proof.
  intros Hclock Hw. destruct r as [b|title artist album audio cover]; simpl.
  - unfold post_songs. destruct (SongCreate.validate b) as [song|]; [|done].
    unfold create_song. destruct (negb _); [done|].
    destruct (create_document_appends "song" song w) as (_ & Hdocs & _ & _).
    destruct (create_document_world "song" song w) as (Hc & _).
    destruct (create_document "song" song w) as [new_id w']. cbn [fst snd] in *.
    split.
    + unfold clock_ok. by rewrite Hc.
    + unfold listable. rewrite Hdocs. apply Forall_app. split; [done|].
      repeat constructor. apply stored_timestamped, Hclock.
  - destruct (can_store audio cover w) eqn:Hok.
    + destruct (upload_song_run title artist album audio cover w Hok)
        as (w' & -> & Hdocs & _ & _ & _ & _ & _ & Hc & _). cbn [snd]. split.
      * unfold clock_ok. by rewrite Hc.
      * unfold listable. rewrite Hdocs. apply Forall_app. split; [done|].
        repeat constructor. apply upload_doc_timestamped, Hclock.
    + destruct (upload_song_fails title artist album audio cover w Hok)
        as (w' & -> & Hs & _ & Hc & _). cbn [snd]. split.
      * unfold clock_ok. by rewrite Hc.
      * unfold listable, get_documents. by rewrite Hs.
Qed.

Lemma after_grows (w : world) (r : request) :
  (length (get_documents "song" w) ≤ length (get_documents "song" (after w r))
   ≤ S (length (get_documents "song" w)))%nat.
Proof.
  destruct r as [b|title artist album audio cover]; simpl.
  - unfold post_songs. destruct (SongCreate.validate b) as [song|]; [|simpl; lia].
    unfold create_song. destruct (negb _); [simpl; lia|].
    destruct (create_document_appends "song" song w) as (_ & Hdocs & _ & _).
    destruct (create_document "song" song w) as [new_id w']. cbn [fst snd] in *.
    rewrite Hdocs, length_app. simpl. lia.
  - destruct (can_store audio cover w) eqn:Hok.
    + destruct (upload_song_run title artist album audio cover w Hok)
        as (w' & -> & Hdocs & _). cbn [snd]. rewrite Hdocs, length_app. simpl. lia.
    + destruct (upload_song_fails title artist album audio cover w Hok)
        as (w' & -> & Hs & _). cbn [snd]. unfold get_documents. rewrite Hs. lia.
Qed.

(** X12. A store that can be listed stays so under the service: after
    any sequence of [POST /songs] and [POST /songs/upload] requests,
    accepted or refused, [GET /songs] returns (never the 500 of the
    sort), with at least the records it had and at most one more for
    each request. *)
Theorem list_songs_after_requests (w : world) (rs : list request) :
  clock_ok w → listable w →
  ∃ out,
    list_songs (foldl after w rs) = Returned out ∧
    (length (get_documents "song" w) ≤ length out
     ≤ length (get_documents "song" w) + length rs)%nat.
Proof.
  revert w. induction rs as [|r rs IH]; intros w Hclock Hw; simpl.
  - destruct (list_songs_of_sorted _ Hw) as (out & Hout & Hperm & _).
    exists out. split; [exact Hout|]. rewrite Hperm, length_fmap. lia.
  - destruct (after_keeps_listable w r Hclock Hw) as [Hclock' Hw'].
    destruct (IH (after w r) Hclock' Hw') as (out & Hout & Hlen).
    exists out. split; [exact Hout|].
    pose proof (after_grows w r). lia.
Qed.

Lemma steady_clock_ok : clock_ok steady_world.
Proof.
  intros n. unfold Py.datetime_ok. cbn.
  apply N.ltb_lt, N.mod_lt. discriminate.
Defined.

Lemma list_songs_after_requests_witness :
  ∃ out,
    list_songs (foldl after steady_world
                  [PostSong body_empty_names;
                   PostSong (SongCreate.mk_body None None None None None None);
                   UploadSong "A" "B" None upload_ab (Some upload_cover)])
    = Returned out ∧
    (length (get_documents "song" steady_world) ≤ length out
     ≤ length (get_documents "song" steady_world) + 3)%nat.
Proof.
  apply (list_songs_after_requests steady_world
           [PostSong body_empty_names;
            PostSong (SongCreate.mk_body None None None None None None);
            UploadSong "A" "B" None upload_ab (Some upload_cover)]).
  - exact steady_clock_ok.
  - constructor.
Defined.

(** ** [GET /test]: what the answer shows *)

(** X13. The answer never shows [db.name]: the value assigned from it is
    overwritten before the return, so a handle answers the same
    whatever its name is, or without one. *)
Theorem get_test_hides_name (a a' : string) (lst : Diag.exn + list string)
    (environ : gmap string string) :
  Diag.get_test (Some (Diag.mk_db (Diag.Attr a) lst)) environ
  = Diag.get_test (Some (Diag.mk_db (Diag.Attr a') lst)) environ ∧
  Diag.get_test (Some (Diag.mk_db (Diag.Attr a) lst)) environ
  = Diag.get_test (Some (Diag.mk_db Diag.NoAttr lst)) environ.
Proof.
  destruct lst as [e|names].
  - by rewrite !get_test_listing_raises.
  - by rewrite !get_test_working.
Qed.

Lemma set_or_not_set (environ : gmap string string) (k : string) :
  Diag.set_or_not environ k = "✅ Set" ↔ ∃ v, environ !! k = Some v ∧ v ≠ "".
Proof.
  unfold Diag.set_or_not. destruct (environ !! k) as [v|]; simpl.
  - destruct (String.eqb_spec v ""); simpl; split; try done.
    + intros (v' & [= <-] & ?). done.
    + intros _. by exists v.
  - split; [done|]. by intros (v & ? & _).
Qed.

Lemma get_test_config (db : option Diag.Database) (environ : gmap string string)
    (r : Diag.response) :
  Diag.get_test db environ = Returned r →
  Diag.database_url r = Some (Diag.set_or_not environ "DATABASE_URL") ∧
  Diag.database_name r = Some (Diag.set_or_not environ "DATABASE_NAME").
Proof.
  destruct db as [[nm lst]|].
  - destruct nm as [|a|e].
    + destruct lst as [e'|names];
        [rewrite get_test_listing_raises by done|rewrite get_test_working by done];
        by intros [= <-].
    + destruct lst as [e'|names];
        [rewrite get_test_listing_raises by done|rewrite get_test_working by done];
        by intros [= <-].
    + rewrite get_test_name_raises. by intros [= <-].
  - rewrite get_test_no_handle. by intros [= <-].
Qed.

(** X14. [database_url] and [database_name] of the answer report the
    environment only, whatever the handle is: each is ["✅ Set"] exactly
    when its variable is set to a non-empty string, and ["❌ Not Set"]
    otherwise, also when the variable is set to the empty string. *)
Theorem get_test_reports_environment (db : option Diag.Database)
    (environ : gmap string string) (r : Diag.response) :
  Diag.get_test db environ = Returned r →
  (Diag.database_url r = Some "✅ Set" ↔
     ∃ v, environ !! "DATABASE_URL" = Some v ∧ v ≠ "") ∧
  (Diag.database_url r ≠ Some "✅ Set" → Diag.database_url r = Some "❌ Not Set") ∧
  (Diag.database_name r = Some "✅ Set" ↔
     ∃ v, environ !! "DATABASE_NAME" = Some v ∧ v ≠ "") ∧
  (Diag.database_name r ≠ Some "✅ Set" → Diag.database_name r = Some "❌ Not Set").
Proof.
  intros [Hu Hn]%get_test_config. rewrite Hu, Hn. split_and!.
  - rewrite <-set_or_not_set. split; [by intros [= ->]|by intros ->].
  - unfold Diag.set_or_not. by destruct (Py.truthy _).
  - rewrite <-set_or_not_set. split; [by intros [= ->]|by intros ->].
  - unfold Diag.set_or_not. by destruct (Py.truthy _).
Qed.

Lemma get_test_reports_environment_witness :
  (Diag.database_url
     (diag_response {[ "DATABASE_URL" := "mongodb://h"; "DATABASE_NAME" := "" ]}
        "⚠️  Available but not initialized" "Not Connected" [])
   = Some "✅ Set" ↔
   ∃ v, ({[ "DATABASE_URL" := "mongodb://h"; "DATABASE_NAME" := "" ]}
          : gmap string string) !! "DATABASE_URL" = Some v ∧ v ≠ "") ∧
  (Diag.database_url
     (diag_response {[ "DATABASE_URL" := "mongodb://h"; "DATABASE_NAME" := "" ]}
        "⚠️  Available but not initialized" "Not Connected" [])
   ≠ Some "✅ Set" →
   Diag.database_url
     (diag_response {[ "DATABASE_URL" := "mongodb://h"; "DATABASE_NAME" := "" ]}
        "⚠️  Available but not initialized" "Not Connected" [])
   = Some "❌ Not Set") ∧
  (Diag.database_name
     (diag_response {[ "DATABASE_URL" := "mongodb://h"; "DATABASE_NAME" := "" ]}
        "⚠️  Available but not initialized" "Not Connected" [])
   = Some "✅ Set" ↔
   ∃ v, ({[ "DATABASE_URL" := "mongodb://h"; "DATABASE_NAME" := "" ]}
          : gmap string string) !! "DATABASE_NAME" = Some v ∧ v ≠ "") ∧
  (Diag.database_name
     (diag_response {[ "DATABASE_URL" := "mongodb://h"; "DATABASE_NAME" := "" ]}
        "⚠️  Available but not initialized" "Not Connected" [])
   ≠ Some "✅ Set" →
   Diag.database_name
     (diag_response {[ "DATABASE_URL" := "mongodb://h"; "DATABASE_NAME" := "" ]}
        "⚠️  Available but not initialized" "Not Connected" [])
   = Some "❌ Not Set").
Proof.
  apply (get_test_reports_environment None
           {[ "DATABASE_URL" := "mongodb://h"; "DATABASE_NAME" := "" ]}).
  reflexivity.
Defined.

Example get_test_empty_variable :
  Diag.get_test None {[ "DATABASE_URL" := "mongodb://h"; "DATABASE_NAME" := "" ]}
  = Returned (Diag.mk_response "✅ Running" "⚠️  Available but not initialized"
                (Some "✅ Set") (Some "❌ Not Set") "Not Connected" []).
Proof. reflexivity. Qed.

Lemma slice_to_ascii (n : nat) (s : string) :
  all_chars (λ c, Py.continuation c = false) s →
  Py.slice_to n s = substring 0 n s ∧ Py.len s = String.length s.
Proof.
  revert n. induction s as [|c s IH]; intros n; simpl; [by destruct n|].
  intros [-> Hs]. destruct n as [|n].
  - split; [done|]. f_equal. apply (IH 0%nat Hs).
  - destruct (IH n Hs) as [-> ->]. done.
Qed.

Lemma slice_to_again (n : nat) (s : string) :
  Py.slice_to n (Py.slice_to n s) = Py.slice_to n s.
Proof. apply slice_to_all. rewrite slice_to_len. lia. Qed.

(** X15. [str(e)[:50]] only cuts, and it cuts by characters: a message
    of at most 50 characters is shown whole, however many bytes they
    take; a longer one is cut to exactly 50 characters; what is shown
    begins the message and ends between two characters of it, never
    inside one; cutting what was cut changes nothing; and on a message
    of ASCII characters the text shown is its first 50 bytes. *)
Theorem str50_cuts_only (e : Diag.exn) :
  ((Py.len (Diag.message e) ≤ 50)%nat → Diag.str50 e = Diag.message e) ∧
  ((50 < Py.len (Diag.message e))%nat → Py.len (Diag.str50 e) = 50%nat) ∧
  (∃ rest, Diag.message e = Diag.str50 e ++ rest ∧ char_boundary rest) ∧
  Diag.str50 (Diag.Exception (Diag.str50 e)) = Diag.str50 e ∧
  (all_chars (λ c, Py.continuation c = false) (Diag.message e) →
   Diag.str50 e = substring 0 50 (Diag.message e) ∧
   Py.len (Diag.message e) = String.length (Diag.message e)).
Proof.
  unfold Diag.str50. split_and!.
  - apply slice_to_all.
  - intros H. rewrite slice_to_len. lia.
  - apply slice_to_prefix.
  - apply slice_to_again.
  - apply slice_to_ascii.
Qed.

Example get_test_long_error :
  Diag.database
    (diag_response ∅
       ("⚠️  Connected but Error: " ++
        Diag.str50 (Diag.Exception
          "0123456789012345678901234567890123456789012345678901234567890123456789"))
       "Connected" [])
  = "⚠️  Connected but Error: 01234567890123456789012345678901234567890123456789".
Proof. reflexivity. Qed.

(** A message of 30 characters that takes 60 bytes is shown whole; one
    of 60 such characters is cut after the 50th. *)
Example str50_counts_characters :
  String.length "éééééééééééééééééééééééééééééé" = 60%nat ∧
  Py.len "éééééééééééééééééééééééééééééé" = 30%nat ∧
  Diag.str50 (Diag.Exception "éééééééééééééééééééééééééééééé")
  = "éééééééééééééééééééééééééééééé" ∧
  Diag.str50 (Diag.Exception
    "éééééééééééééééééééééééééééééééééééééééééééééééééééééééééééé")
  = "éééééééééééééééééééééééééééééééééééééééééééééééééé".
Proof. split_and!; reflexivity. Qed.
